(** * RL-Representation: architecture selection, network assembly and the
      experience buffer

    A shallow embedding of
      - [src/rl_cookbook/models/base.py]: the encoder/decoder factories, the
        dispatch on the observation shape, [PolicyNetwork], [DDDQNNetwork]
        and [StatePredictionModel];
      - [agents/base.py]: [ExperienceBufferMixin].

    Python integers are [Z]; a tuple of dimensions is a [list Z]; a Python
    call that can raise returns a [result].  The tensor library is not part
    of the repository: its layers are represented by descriptors, and what
    they do to a tensor is modelled at the level of tensor shapes (the size
    rules the library documents).  Only [DDDQNNetwork] is modelled on tensor
    values, over exact rationals. *)

From Stdlib Require Import PrimFloat.
From Stdlib Require Import String.
From Stdlib Require Import ZArith List Bool Lia Permutation.
From Stdlib Require Import QArith Qminmax Qfield Lqa.
Import ListNotations.
Open Scope Z_scope.

(* ================================================================== *)
(** ** Python: exceptions, indexing, slices *)

Inductive exn : Type :=
| Exception (msg : string)   (* [raise Exception(msg)] in the source *)
| IndexError                 (* tuple or list index out of range *)
| ValueError                 (* raised by the array library *)
| RuntimeError.              (* raised by the tensor library *)

Inductive result (A : Type) : Type :=
| Ok (a : A)
| Raise (e : exn).
Arguments Ok {A} a.
Arguments Raise {A} e.

Definition bind {A B} (r : result A) (k : A -> result B) : result B :=
  match r with
  | Ok a => k a
  | Raise e => Raise e
  end.

Notation "x <- c ;; k" := (bind c (fun x => k))
  (at level 61, c at next level, right associativity).

Definition is_ok {A} (r : result A) : bool :=
  match r with Ok _ => true | Raise _ => false end.

(** [t[i]] for a non-negative literal index [i]. *)
Definition py_index {A} (t : list A) (i : nat) : result A :=
  match nth_error t i with
  | Some x => Ok x
  | None => Raise IndexError
  end.

(** [l[start:]]: a negative [start] counts from the end, and the bound is
    clipped to the list. *)
Definition py_slice_from {A} (start : Z) (l : list A) : list A :=
  let len := Z.of_nat (length l) in
  let s := if start <? 0 then Z.max (start + len) 0 else Z.min start len in
  skipn (Z.to_nat s) l.

Fixpoint mapM {A B} (f : A -> result B) (l : list A) : result (list B) :=
  match l with
  | [] => Ok []
  | x :: xs => y <- f x ;; ys <- mapM f xs ;; Ok (y :: ys)
  end.

(* ================================================================== *)
(** ** The tensor library, at the level of shapes *)

Definition shape := list Z.

Definition numel (s : shape) : Z := fold_right Z.mul 1 s.

Inductive layer : Type :=
| Flatten
| Linear (in_features out_features : Z)
| ReLU
| Conv2d (in_channels out_channels kernel stride padding : Z)
| ConvTranspose2d (in_channels out_channels kernel stride padding : Z)
| ReshapeLayer (shape : shape).

(** [nn.Sequential]: the layers in order.  A [Sequential] placed inside
    another one is written as concatenation. *)
Definition Sequential := list layer.

(** Constructors allocate the parameter tensors, which fails on a negative
    size. *)
Definition nn_Linear (i o : Z) : result layer :=
  if (i <? 0) || (o <? 0) then Raise RuntimeError else Ok (Linear i o).

Definition nn_Conv2d (ci co k s p : Z) : result layer :=
  if (ci <? 0) || (co <? 0) then Raise RuntimeError else Ok (Conv2d ci co k s p).

Definition nn_ConvTranspose2d (ci co k s p : Z) : result layer :=
  if (ci <? 0) || (co <? 0) then Raise RuntimeError
  else Ok (ConvTranspose2d ci co k s p).

(** [torch.zeros] applied to the unpacked dimensions. *)
Definition torch_zeros (dims : shape) : result shape :=
  if forallb (fun d => 0 <=? d) dims then Ok dims else Raise RuntimeError.

(** Output size of a convolution along one spatial axis. *)
Definition conv_out (h k s p : Z) : result Z :=
  if h + 2 * p <? k then Raise RuntimeError   (* kernel larger than input *)
  else Ok ((h + 2 * p - k) / s + 1).

Definition conv_transpose_out (h k s p : Z) : result Z :=
  let o := (h - 1) * s - 2 * p + k in
  if (h <? 1) || (o <? 1) then Raise RuntimeError else Ok o.

(** Replace the last dimension [i] by [o]. *)
Fixpoint linear_shape (i o : Z) (s : shape) : result shape :=
  match s with
  | [] => Raise RuntimeError
  | [d] => if d =? i then Ok [o] else Raise RuntimeError
  | d :: ds => ds' <- linear_shape i o ds ;; Ok (d :: ds')
  end.

(** The shape a layer returns on an input of shape [s]. *)
Definition layer_forward (l : layer) (s : shape) : result shape :=
  match l with
  | Flatten =>
      match s with
      | b :: d :: ds => Ok [b; numel (d :: ds)]
      | _ => Raise IndexError
      end
  | Linear i o => linear_shape i o s
  | ReLU => Ok s
  | Conv2d ci co k st p =>
      match s with
      | [n; c; h; w] =>
          if c =? ci then
            h' <- conv_out h k st p ;; w' <- conv_out w k st p ;;
            Ok [n; co; h'; w']
          else Raise RuntimeError
      | [c; h; w] =>                       (* unbatched input *)
          if c =? ci then
            h' <- conv_out h k st p ;; w' <- conv_out w k st p ;;
            Ok [co; h'; w']
          else Raise RuntimeError
      | _ => Raise RuntimeError
      end
  | ConvTranspose2d ci co k st p =>
      match s with
      | [n; c; h; w] =>
          if c =? ci then
            h' <- conv_transpose_out h k st p ;;
            w' <- conv_transpose_out w k st p ;;
            Ok [n; co; h'; w']
          else Raise RuntimeError
      | [c; h; w] =>
          if c =? ci then
            h' <- conv_transpose_out h k st p ;;
            w' <- conv_transpose_out w k st p ;;
            Ok [co; h'; w']
          else Raise RuntimeError
      | _ => Raise RuntimeError
      end
  | ReshapeLayer sh =>
      (* batch_size = x.shape[0]; view as batch_size followed by shape *)
      match s with
      | [] => Raise IndexError
      | b :: _ =>
          if numel s =? numel (b :: sh) then Ok (b :: sh) else Raise RuntimeError
      end
  end.

Fixpoint net_forward (net : Sequential) (s : shape) : result shape :=
  match net with
  | [] => Ok s
  | l :: ls => s' <- layer_forward l s ;; net_forward ls s'
  end.

(** [x.view(b, -1)]. *)
Definition view_rows (b : Z) (s : shape) : result shape :=
  if (0 <? b) && (numel s mod b =? 0) then Ok [b; numel s / b]
  else Raise RuntimeError.

(** [x.view] onto the dimensions [target]. *)
Definition view_as (target s : shape) : result shape :=
  if numel s =? numel target then Ok target else Raise RuntimeError.

(** [torch.cat([x, y], dim=1)]; a one-dimensional empty [y] is skipped. *)
Definition torch_cat1 (x y : shape) : result shape :=
  match x, y with
  | [b; m], [b'; k] => if b =? b' then Ok [b; m + k] else Raise RuntimeError
  | [b; m], [e] => if e =? 0 then Ok [b; m] else Raise RuntimeError
  | _, _ => Raise RuntimeError
  end.

(* ================================================================== *)
(** ** models/base.py: factories *)

Definition create_simple_1D_encoder (input_dim : shape) : result Sequential :=
  d0 <- py_index input_dim 0 ;;
  d1 <- py_index input_dim 1 ;;
  let flat_dim := d0 * d1 in
  l1 <- nn_Linear flat_dim 16 ;;
  l2 <- nn_Linear 16 32 ;;
  Ok [Flatten; l1; ReLU; l2; ReLU].

Definition create_simple_1D_decoder (input_dim : shape) : result Sequential :=
  d0 <- py_index input_dim 0 ;;
  d1 <- py_index input_dim 1 ;;
  let flat_dim := d0 * d1 in
  l1 <- nn_Linear 32 16 ;;
  l2 <- nn_Linear 16 flat_dim ;;
  Ok [l1; ReLU; l2; ReshapeLayer input_dim].

Definition create_gridworld_encoder (n_channels : Z) : result Sequential :=
  c1 <- nn_Conv2d n_channels 8 4 2 0 ;;
  c2 <- nn_Conv2d 8 16 3 1 0 ;;
  Ok [c1; ReLU; c2; ReLU].

Definition create_gridworld_decoder (n_channels : Z) : result Sequential :=
  t1 <- nn_ConvTranspose2d 16 8 3 1 0 ;;
  t2 <- nn_ConvTranspose2d 8 n_channels 4 2 0 ;;
  c3 <- nn_Conv2d n_channels n_channels 3 1 1 ;;
  Ok [t1; ReLU; t2; c3].

Definition create_atari_encoder (n_channels : Z) : result Sequential :=
  c1 <- nn_Conv2d n_channels 32 5 5 0 ;;
  c2 <- nn_Conv2d 32 64 5 5 0 ;;
  Ok [c1; ReLU; c2; ReLU].

Definition create_atari_decoder (n_channels : Z) : result Sequential :=
  t1 <- nn_ConvTranspose2d 64 32 5 5 0 ;;
  t2 <- nn_ConvTranspose2d 32 n_channels 5 5 0 ;;
  c3 <- nn_Conv2d n_channels n_channels 3 1 1 ;;
  Ok [t1; ReLU; t2; ReLU; c3].

Definition GYM_HIDDEN_SIZE : Z := 32.
Definition GRIDWORLD_HIDDEN_SIZE : Z := 64.
Definition ATARI_HIDDEN_SIZE : Z := 256.

Definition too_large : exn :=
  Exception "1D observation dimensions this large are not supported!".

Definition get_hidden_size_from_obs_dim (obs_dim : shape) : result Z :=
  if (length obs_dim =? 2)%nat then
    d0 <- py_index obs_dim 0 ;;
    if d0 <=? 32 then Ok GYM_HIDDEN_SIZE else Raise too_large
  else
    d1 <- py_index obs_dim 1 ;;
    if d1 <=? 32 then Ok GRIDWORLD_HIDDEN_SIZE else Ok ATARI_HIDDEN_SIZE.

Definition create_encoder_from_obs_dim (obs_dim : shape) : result Sequential :=
  if (length obs_dim =? 2)%nat then
    d0 <- py_index obs_dim 0 ;;
    if d0 <=? 32 then create_simple_1D_encoder obs_dim else Raise too_large
  else
    d1 <- py_index obs_dim 1 ;;
    if d1 <=? 32 then
      d0 <- py_index obs_dim 0 ;; create_gridworld_encoder d0
    else
      d0 <- py_index obs_dim 0 ;; create_atari_encoder d0.

Definition create_decoder_from_obs_dim (obs_dim : shape) : result Sequential :=
  if (length obs_dim =? 1)%nat then
    d0 <- py_index obs_dim 0 ;;
    if d0 <=? 32 then create_simple_1D_decoder obs_dim else Raise too_large
  else
    d1 <- py_index obs_dim 1 ;;
    if d1 <=? 32 then
      d0 <- py_index obs_dim 0 ;; create_gridworld_decoder d0
    else
      d0 <- py_index obs_dim 0 ;; create_atari_decoder d0.

(** The architecture families, and the family a constructed encoder or
    decoder belongs to, read off its first layer. *)
Inductive family : Type := Flat | SmallGrid | LargeGrid.

Definition encoder_family (e : Sequential) : option family :=
  match e with
  | Flatten :: _ => Some Flat
  | Conv2d _ 8 4 2 0 :: _ => Some SmallGrid
  | Conv2d _ 32 5 5 0 :: _ => Some LargeGrid
  | _ => None
  end.

Definition decoder_family (d : Sequential) : option family :=
  match d with
  | Linear 32 16 :: _ => Some Flat
  | ConvTranspose2d 16 8 3 1 0 :: _ => Some SmallGrid
  | ConvTranspose2d 64 32 5 5 0 :: _ => Some LargeGrid
  | _ => None
  end.

(** Whether the shape has a second element and that element is at most 32. *)
Definition second_at_most_32 (s : shape) : bool :=
  match s with
  | _ :: d1 :: _ => d1 <=? 32
  | _ => false
  end.

(** The policy of the specification, written from its words: a length-2
    shape with first element at most 32 is flat with width 32, a length-2
    shape with a larger first element is unsupported ([None]); otherwise a
    second element at most 32 gives small-grid with width 64, and any other
    shape gives large-grid with width 256. *)
Definition spec_policy (s : shape) : option (family * Z) :=
  match s with
  | [d0; _] => if d0 <=? 32 then Some (Flat, 32) else None
  | _ => if second_at_most_32 s then Some (SmallGrid, 64)
         else Some (LargeGrid, 256)
  end.

(** The two classifying functions of the source agree with what the policy
    prescribes for [s]. *)
Definition classifier_follows_policy (s : shape) : Prop :=
  match spec_policy s with
  | Some (f, w) =>
      get_hidden_size_from_obs_dim s = Ok w /\
      exists e, create_encoder_from_obs_dim s = Ok e /\
                encoder_family e = Some f
  | None =>
      get_hidden_size_from_obs_dim s = Raise too_large /\
      create_encoder_from_obs_dim s = Raise too_large
  end.

(** Shapes as the data model has them: tuples of positive integers. *)
Definition positive_dims (s : shape) : Prop := Forall (fun d => 0 < d) s.

(* ================================================================== *)
(** ** models/base.py: PolicyNetwork *)

Module PolicyNetwork.

Record t : Type := { encoder_output_size : Z; layers : Sequential }.

(** The constructor with [encoder] and [hidden_size] left at [None]. *)
Definition __init__ (obs_dim : shape) (n_acts : Z) : result t :=
  encoder <- create_encoder_from_obs_dim obs_dim ;;
  test_input <- torch_zeros (1 :: obs_dim) ;;
  out <- net_forward encoder test_input ;;
  let encoder_output_size := numel out in
  hidden_size <- get_hidden_size_from_obs_dim obs_dim ;;
  l1 <- nn_Linear encoder_output_size hidden_size ;;
  l2 <- nn_Linear hidden_size n_acts ;;
  Ok {| encoder_output_size := encoder_output_size;
        layers := encoder ++ [Flatten; l1; ReLU; l2] |}.

Definition forward (self : t) (x : shape) : result shape :=
  net_forward (layers self) x.

End PolicyNetwork.

(* ================================================================== *)
(** ** models/base.py: StatePredictionModel *)

Module StatePredictionModel.

Record t : Type := {
  downsample_convs : Sequential;
  fc : Sequential;
  upsample_convs : Sequential;
  encoder : Sequential
}.

Definition __init__ (obs_dim : shape) (n_acts : Z) : result t :=
  downsample_convs <- create_encoder_from_obs_dim obs_dim ;;
  test_input <- torch_zeros (1 :: obs_dim) ;;
  out <- net_forward downsample_convs test_input ;;
  let output_dim := numel out in
  hidden_size <- get_hidden_size_from_obs_dim obs_dim ;;
  l1 <- nn_Linear (output_dim + n_acts) hidden_size ;;
  l2 <- nn_Linear hidden_size hidden_size ;;
  l3 <- nn_Linear hidden_size output_dim ;;
  upsample_convs <- create_decoder_from_obs_dim obs_dim ;;
  Ok {| downsample_convs := downsample_convs;
        fc := [l1; ReLU; l2; ReLU; l3; ReLU];
        upsample_convs := upsample_convs;
        encoder := downsample_convs ++ [Flatten] |}.

Definition forward (self : t) (obs acts : shape) : result shape :=
  conv_out <- net_forward (downsample_convs self) obs ;;
  b <- py_index obs 0 ;;
  z <- view_rows b conv_out ;;
  z <- torch_cat1 z acts ;;
  z <- net_forward (fc self) z ;;
  z <- view_as conv_out z ;;
  net_forward (upsample_convs self) z.

End StatePredictionModel.

(* ================================================================== *)
(** ** models/base.py: DDDQNNetwork, on tensor values

    Scalars are exact rationals.  A batch is a list of rows and every layer
    acts on the rows one by one, so the network is written for one row; a
    row is flattened, which makes [nn.Flatten] the identity. *)

Module DDDQNNetwork.

Definition vec := list Q.

Definition vsum (v : vec) : Q := fold_right Qplus 0%Q v.

Fixpoint dot (u v : vec) : Q :=
  match u, v with
  | a :: u', b :: v' => (a * b + dot u' v')%Q
  | _, _ => 0%Q
  end.

(** [x.mean(dim=1)] on one row. *)
Definition mean (v : vec) : Q := (vsum v / inject_Z (Z.of_nat (length v)))%Q.

(** [nn.Linear]: one weight row and one bias per output unit. *)
Record linear : Type := { weight : list vec; bias : vec }.

Definition out_features (l : linear) : nat := length (bias l).

Definition well_formed (l : linear) : Prop :=
  length (weight l) = length (bias l).

Definition linear_apply (l : linear) (x : vec) : vec :=
  map (fun wb => (dot (fst wb) x + snd wb)%Q) (combine (weight l) (bias l)).

Definition relu (x : vec) : vec := map (Qmax 0) x.

(** [tensor.data.fill_(c)]. *)
Definition fill_ (c : Q) (l : linear) : linear :=
  {| weight := map (map (fun _ => c)) (weight l);
     bias := map (fun _ => c) (bias l) |}.

Section Network.

(** One observation of the batch. *)
Variable Obs : Type.

(** [value_layers] ends in [nn.Linear(hidden_size, 1)]: a single weight
    row and a single bias. *)
Record t : Type := {
  encoder : Obs -> vec;
  value_hidden : linear;
  value_out_weight : vec;
  value_out_bias : Q;
  advantage_hidden : linear;
  advantage_out : linear
}.

Definition _init_weights (self : t) : t :=
  {| encoder := encoder self;
     value_hidden := value_hidden self;
     value_out_weight := map (fun _ => 0%Q) (value_out_weight self);
     value_out_bias := 0%Q;
     advantage_hidden := advantage_hidden self;
     advantage_out := fill_ 0 (advantage_out self) |}.

(** The constructor: the layers as the library initialises them
    ([params]), then [_init_weights]. *)
Definition __init__ (params : t) : t := _init_weights params.

Definition value_layers (self : t) (z : vec) : Q :=
  (dot (value_out_weight self) (relu (linear_apply (value_hidden self) z))
   + value_out_bias self)%Q.

Definition advantage_layers (self : t) (z : vec) : vec :=
  linear_apply (advantage_out self)
               (relu (linear_apply (advantage_hidden self) z)).

Definition forward (self : t) (x : Obs) : vec :=
  let z := encoder self x in
  let values := value_layers self z in
  let advantages := advantage_layers self z in
  let advantage_means := mean advantages in
  let advantages := map (fun a => (a - advantage_means)%Q) advantages in
  let qs := map (fun a => (values + a)%Q) advantages in
  qs.

Definition forward_batch (self : t) (xs : list Obs) : list vec :=
  map (forward self) xs.

End Network.

Arguments encoder {Obs} _.
Arguments value_hidden {Obs} _.
Arguments value_out_weight {Obs} _.
Arguments value_out_bias {Obs} _.
Arguments advantage_hidden {Obs} _.
Arguments advantage_out {Obs} _.
Arguments _init_weights {Obs} _.
Arguments __init__ {Obs} _.
Arguments value_layers {Obs} _ _.
Arguments advantage_layers {Obs} _ _.
Arguments forward {Obs} _ _.
Arguments forward_batch {Obs} _ _.

End DDDQNNetwork.

(** A small network over rows of two features, three actions, with
    arbitrary non-zero parameters standing for a random initialisation. *)
Definition small_dueling_params : DDDQNNetwork.t (list Q) :=
  {| DDDQNNetwork.encoder := fun x => x;
     DDDQNNetwork.value_hidden :=
       {| DDDQNNetwork.weight := [[1; 2]; [3; -1]]%Q;
          DDDQNNetwork.bias := [1 # 2; 0]%Q |};
     DDDQNNetwork.value_out_weight := [2; 1 # 3]%Q;
     DDDQNNetwork.value_out_bias := 5%Q;
     DDDQNNetwork.advantage_hidden :=
       {| DDDQNNetwork.weight := [[1; 0]; [0; 1]]%Q;
          DDDQNNetwork.bias := [0; 1]%Q |};
     DDDQNNetwork.advantage_out :=
       {| DDDQNNetwork.weight := [[1; 1]; [2; 0]; [0; 7]]%Q;
          DDDQNNetwork.bias := [1; 2; 3]%Q |} |}.

(* ================================================================== *)
(** ** agents/base.py: ExperienceBufferMixin *)

(** The generator behind [np.random.choice]: [permutation m] is a shuffle of
    [range(m)], [randint m k] is [k] draws below [m]. *)
Record RandomState : Type := {
  permutation : nat -> list nat;
  randint : nat -> nat -> list nat
}.

Definition RandomState_ok (g : RandomState) : Prop :=
  (forall m, Permutation (permutation g m) (seq 0 m)) /\
  (forall m k, (0 < m)%nat ->
               length (randint g m k) = k /\
               Forall (fun i => (i < m)%nat) (randint g m k)).

(** [np.random.choice(range(pop_size), size=size, replace=replace)]. *)
Definition np_random_choice (g : RandomState) (pop_size : nat) (size : Z)
           (replace : bool) : result (list nat) :=
  if (pop_size =? 0)%nat && negb (size =? 0) then Raise ValueError
  else if replace then
    if size <? 0 then Raise ValueError
    else Ok (randint g pop_size (Z.to_nat size))
  else if Z.of_nat pop_size <? size then Raise ValueError
  else if size <? 0 then Raise ValueError
  else Ok (firstn (Z.to_nat size) (permutation g pop_size)).

(** [np.array(batch).shape[1]] for a list of tuples: an empty list gives a
    one-dimensional array, tuples of different lengths give no rectangular
    array. *)
Definition np_array_shape1 {F} (batch : list (list F)) : result nat :=
  match batch with
  | [] => Raise IndexError
  | r :: rs =>
      if forallb (fun r' => (length r' =? length r)%nat) rs
      then Ok (length r) else Raise ValueError
  end.

(** [np.stack(batch[:, i])]: position [i] of every tuple.  The fields are
    opaque; stacking them is taken to succeed. *)
Definition np_stack_column {F} (batch : list (list F)) (i : nat)
  : result (list F) :=
  mapM (fun r => py_index r i) batch.

Module ExperienceBufferMixin.

Record t (A : Type) : Type := { buffer : list A; max_size : Z }.
Arguments buffer {A} _.
Arguments max_size {A} _.

(** Methods run on the object and either return or raise. *)
Definition M (A B : Type) : Type := t A -> result B * t A.

Definition ret {A B} (b : B) : M A B := fun self => (Ok b, self).
Definition lift {A B} (r : result B) : M A B := fun self => (r, self).
Definition bindM {A B C} (c : M A B) (k : B -> M A C) : M A C :=
  fun self =>
    match c self with
    | (Ok b, self') => k b self'
    | (Raise e, self') => (Raise e, self')
    end.
Definition get_buffer {A} : M A (list A) := fun self => (Ok (buffer self), self).
Definition get_max_size {A} : M A Z := fun self => (Ok (max_size self), self).
Definition set_buffer {A} (b : list A) : M A unit :=
  fun self => (Ok tt, {| buffer := b; max_size := max_size self |}).

Notation "x <~ c ;; k" := (bindM c (fun x => k))
  (at level 61, c at next level, right associativity).
Notation "c ;;; k" := (bindM c (fun _ => k))
  (at level 61, right associativity).

Definition __init__ {A} (max_size : Z) : t A :=
  {| buffer := []; max_size := max_size |}.

Definition _fix_size {A} : M A unit :=
  b <~ get_buffer ;; m <~ get_max_size ;; set_buffer (py_slice_from (- m) b).

Definition append_data {A} (data : A) : M A unit :=
  b <~ get_buffer ;; set_buffer (b ++ [data]) ;;; _fix_size.

Definition extend_data {A} (data : list A) : M A unit :=
  b <~ get_buffer ;; set_buffer (b ++ data) ;;; _fix_size.

(** The loop [for i in data_idxs: batch_data.append(self.buffer[i])]. *)
Fixpoint gather {A} (data_idxs : list nat) (batch_data : list A)
  : M A (list A) :=
  match data_idxs with
  | [] => ret batch_data
  | i :: rest =>
      b <~ get_buffer ;;
      x <~ lift (py_index b i) ;;
      gather rest (batch_data ++ [x])
  end.

(** [sample]; the stored records are tuples of fields. *)
Definition sample {F} (g : RandomState) (n : Z) (replace : bool)
  : M (list F) (list (list F)) :=
  b <~ get_buffer ;;
  data_idxs <~ lift (np_random_choice g (length b) n replace) ;;
  batch_data <~ gather data_idxs [] ;;
  width <~ lift (np_array_shape1 batch_data) ;;
  lift (mapM (np_stack_column batch_data) (seq 0 width)).

(** A sequence of additions. *)
Inductive call (A : Type) : Type :=
| Append (data : A)
| Extend (data : list A).
Arguments Append {A} data.
Arguments Extend {A} data.

Definition run_call {A} (c : call A) (self : t A) : t A :=
  match c with
  | Append x => snd (append_data x self)
  | Extend xs => snd (extend_data xs self)
  end.

Definition run_calls {A} (cs : list (call A)) (self : t A) : t A :=
  fold_left (fun s c => run_call c s) cs self.

Definition added {A} (c : call A) : list A :=
  match c with Append x => [x] | Extend xs => xs end.

Definition all_added {A} (cs : list (call A)) : list A := flat_map added cs.

End ExperienceBufferMixin.

(** The last [c] items of [l] (all of [l] when it is shorter). *)
Definition most_recent {A} (c : nat) (l : list A) : list A :=
  skipn (length l - c) l.

(** A stored record that is a [k]-tuple of integers fitting the array
    library's 64-bit integers: a list of such records converts to one
    rectangular integer array, and each of its columns stacks. *)
Definition int64_tuple (k : nat) (r : list Z) : Prop :=
  length r = k /\ Forall (fun v => - 2 ^ 63 <= v < 2 ^ 63) r.

(** The generator that never shuffles, for concrete runs. *)
Definition identity_generator : RandomState :=
  {| permutation := fun m => seq 0 m; randint := fun m k => repeat 0%nat k |}.

(** A shape is supported when architecture selection accepts it: both the
    width and the encoder are returned. *)
Definition supported_shape (s : shape) : bool :=
  is_ok (get_hidden_size_from_obs_dim s) &&
  is_ok (create_encoder_from_obs_dim s).

(** The policy network built for [obs_dim] and [n_acts] exists and maps a
    batch of [b] observations to a tensor of shape [(b, n_acts)]. *)
Definition policy_returns_logits (obs_dim : shape) (n_acts b : Z) : Prop :=
  exists net, PolicyNetwork.__init__ obs_dim n_acts = Ok net /\
              PolicyNetwork.forward net (b :: obs_dim) = Ok [b; n_acts].

(** The model [StatePredictionModel((4, 84, 84), 3)], written out. *)
Definition world_model_4_84_84 : StatePredictionModel.t :=
  {| StatePredictionModel.downsample_convs :=
       [Conv2d 4 32 5 5 0; ReLU; Conv2d 32 64 5 5 0; ReLU];
     StatePredictionModel.fc :=
       [Linear 579 256; ReLU; Linear 256 256; ReLU; Linear 256 576; ReLU];
     StatePredictionModel.upsample_convs :=
       [ConvTranspose2d 64 32 5 5 0; ReLU; ConvTranspose2d 32 4 5 5 0; ReLU;
        Conv2d 4 4 3 1 1];
     StatePredictionModel.encoder :=
       [Conv2d 4 32 5 5 0; ReLU; Conv2d 32 64 5 5 0; ReLU; Flatten] |}.

(* ================================================================== *)
(** ** models/base.py: CriticNetwork *)

Module CriticNetwork.

Record t : Type := { encoder_output_size : Z; layers : Sequential }.

(** The constructor with [encoder] and [hidden_size] left at [None]. *)
Definition __init__ (obs_dim : shape) : result t :=
  encoder <- create_encoder_from_obs_dim obs_dim ;;
  test_input <- torch_zeros (1 :: obs_dim) ;;
  out <- net_forward encoder test_input ;;
  let encoder_output_size := numel out in
  hidden_size <- get_hidden_size_from_obs_dim obs_dim ;;
  l1 <- nn_Linear encoder_output_size hidden_size ;;
  l2 <- nn_Linear hidden_size 1 ;;
  Ok {| encoder_output_size := encoder_output_size;
        layers := encoder ++ [Flatten; l1; ReLU; l2] |}.

Definition forward (self : t) (x : shape) : result shape :=
  net_forward (layers self) x.

End CriticNetwork.

(* ================================================================== *)
(** ** models/base.py: SFNetwork *)

(** [nn.LayerNorm(d)] and the shape it returns: the input's, provided the
    last dimension is [d]. *)
Definition nn_LayerNorm (d : Z) : result Z :=
  if d <? 0 then Raise RuntimeError else Ok d.

Definition LayerNorm_forward (d : Z) (s : shape) : result shape :=
  match rev s with
  | last :: _ => if last =? d then Ok s else Raise RuntimeError
  | [] => Raise RuntimeError
  end.

Module SFNetwork.

(** [encoder] is the selected encoder, flatten and the linear layer to the
    embedding; [layer_norm] is the normalisation that closes it. *)
Record t : Type := {
  encoder_output_size : Z;
  encoder : Sequential;
  layer_norm : Z;
  sf_predictor : Sequential
}.

(** The constructor with [encoder] and [hidden_size] left at [None]. *)
Definition __init__ (obs_dim : shape) (embed_dim : Z) : result t :=
  encoder <- create_encoder_from_obs_dim obs_dim ;;
  test_input <- torch_zeros (1 :: obs_dim) ;;
  out <- net_forward encoder test_input ;;
  let encoder_output_size := numel out in
  l <- nn_Linear encoder_output_size embed_dim ;;
  ln <- nn_LayerNorm embed_dim ;;
  hidden_size <- get_hidden_size_from_obs_dim obs_dim ;;
  p1 <- nn_Linear embed_dim hidden_size ;;
  p2 <- nn_Linear hidden_size hidden_size ;;
  p3 <- nn_Linear hidden_size embed_dim ;;
  Ok {| encoder_output_size := encoder_output_size;
        encoder := encoder ++ [Flatten; l];
        layer_norm := ln;
        sf_predictor := [p1; ReLU; p2; ReLU; p3] |}.

Definition forward (self : t) (x : shape) : result (shape * shape) :=
  e <- net_forward (encoder self) x ;;
  embeds <- LayerNorm_forward (layer_norm self) e ;;
  sfs <- net_forward (sf_predictor self) embeds ;;
  Ok (embeds, sfs).

End SFNetwork.

(* ================================================================== *)
(** ** envs/wrappers.py: the step wrappers

    An environment is stepped by a function from an action and the
    environment's state to a step result and the next state.  Rewards and
    the termination chance are numbers, taken as exact rationals. *)

Module StepWrappers.

Section Env.

Variables (S A O I : Type).

(** The tuple [obs, reward, done, info] a step returns. *)
Record step_result : Type := {
  obs : O;
  reward : Q;
  done : bool;
  info : I
}.

Definition env_step : Type := A -> S -> step_result * S.

(** [NoRewardWrapper]: [gym.RewardWrapper.step] passes the reward of the
    inner step through [reward], which returns 0. *)
Definition NoRewardWrapper_reward (_ : Q) : Q := 0%Q.

Definition NoRewardWrapper_step (env : env_step) : env_step :=
  fun action s =>
    let (r, s') := env action s in
    ({| obs := obs r; reward := NoRewardWrapper_reward (reward r);
        done := done r; info := info r |}, s').

Definition NoTerminationWrapper_step (env : env_step) : env_step :=
  fun action s =>
    let (r, s') := env action s in
    ({| obs := obs r; reward := reward r; done := false; info := info r |},
     s').

Definition Qltb (x y : Q) : bool := negb (Qle_bool y x).

(** [RandomTerminationWrapper.step]; [u] is the value
    [np.random.random()] returns in this step. *)
Definition RandomTerminationWrapper_step (termination_chance : Q)
           (env : env_step) (u : Q) : env_step :=
  fun action s =>
    let (r, s') := env action s in
    let done' := if Qltb u termination_chance then true else done r in
    ({| obs := obs r; reward := reward r; done := done'; info := info r |},
     s').

(** Stepping through a list of actions. *)
Fixpoint run (env : env_step) (actions : list A) (s : S)
  : list step_result * S :=
  match actions with
  | [] => ([], s)
  | a :: rest =>
      let (r, s') := env a s in
      let (rs, s'') := run env rest s' in
      (r :: rs, s'')
  end.

(** A step result with the reward and the termination flag masked. *)
Definition masked (r : step_result) : step_result :=
  {| obs := obs r; reward := 0%Q; done := false; info := info r |}.

End Env.

Arguments obs {O I} _.
Arguments reward {O I} _.
Arguments done {O I} _.
Arguments info {O I} _.
Arguments NoRewardWrapper_step {S A O I} _ _ _.
Arguments NoTerminationWrapper_step {S A O I} _ _ _.
Arguments RandomTerminationWrapper_step {S A O I} _ _ _ _ _.
Arguments run {S A O I} _ _ _.
Arguments masked {O I} _.

End StepWrappers.

(* ================================================================== *)
(** ** envs/wrappers.py: Scale1DObsWrapper

    An array is a function from the positions of the observation space to
    numbers, so that arithmetic on arrays of one shape is pointwise; the
    cast to [float32] is the identity on exact rationals. *)

Module Scale1DObsWrapper.

Section Positions.

Variable I : Type.

Definition array : Type := I -> Q.

(** [gym.spaces.Box]: the bounds, position by position. *)
Record Box : Type := { low : array; high : array }.

Record t : Type := { observation_space : Box }.

(** The new space has [np.zeros] and [np.ones] of the environment's shape
    as bounds. *)
Definition __init__ (env_observation_space : Box) : t :=
  {| observation_space :=
       {| low := fun _ => 0%Q; high := fun _ => 1%Q |} |}.

Definition observation (self : t) (observation : array) : array :=
  let obs_space := observation_space self in
  let obs_range := fun i => (high obs_space i - low obs_space i)%Q in
  fun i => ((observation i - low obs_space i) / obs_range i)%Q.

End Positions.

Arguments low {I} _ _.
Arguments high {I} _ _.
Arguments observation_space {I} _.
Arguments __init__ {I} _.
Arguments observation {I} _ _ _.

End Scale1DObsWrapper.

(* ================================================================== *)
(** ** envs/wrappers.py: GridWorldWrapper *)

Module GridWorldWrapper.

(** An RGB image: rows of pixels with three channels. *)
Definition pixel : Type := (Q * Q * Q)%type.
Definition rgb_image : Type := list (list pixel).
Definition gray_image : Type := list (list Q).

(** The sum over the channel axis of the channels times
    [0.2989, 0.5870, 0.1140]. *)
Definition gray (p : pixel) : Q :=
  let '(r, g, b) := p in
  (r * (2989 # 10000) + g * (5870 # 10000) + b * (1140 # 10000))%Q.

(** Every channel of the pixel lies between 0 and [m]. *)
Definition channels_within (m : Q) (p : pixel) : Prop :=
  let '(r, g, b) := p in
  (0 <= r <= m /\ 0 <= g <= m /\ 0 <= b <= m)%Q.

Record t : Type := { formatted_obs : option gray_image }.

Definition observation (self : t) (observation : rgb_image)
  : gray_image * t :=
  let observation := map (map gray) observation in
  (observation, {| formatted_obs := Some observation |}).

(** [jump_to_state]: the inner environment's answer with the observation
    converted. *)
Definition jump_to_state {St R D Inf : Type}
           (env_jump_to_state : St -> rgb_image * R * D * Inf)
           (self : t) (state : St) : (gray_image * R * D * Inf) * t :=
  let '(obs, reward, done, info) := env_jump_to_state state in
  let (gray_obs, self') := observation self obs in
  ((gray_obs, reward, done, info), self').

End GridWorldWrapper.

(* ================================================================== *)
(** ** envs/wrappers.py: SimpleMapWrapper._reset_start_map

    The grid map is a two-dimensional integer array: its two sizes and the
    value at every position.  [map_shape] is a pair, as its default is. *)

Module SimpleMapWrapper.

Record ndarray : Type := { n_rows : Z; n_cols : Z; cell : Z -> Z -> Z }.

(** [np.ones((h, w))]. *)
Definition np_ones (h w : Z) : result ndarray :=
  if (h <? 0) || (w <? 0) then Raise ValueError
  else Ok {| n_rows := h; n_cols := w; cell := fun _ _ => 1 |}.

(** An index along an axis of length [n]: negative indices count from the
    end, anything outside the axis is an index error. *)
Definition axis_index (i n : Z) : result Z :=
  let i' := if i <? 0 then i + n else i in
  if (0 <=? i') && (i' <? n) then Ok i' else Raise IndexError.

(** [m[i, j]]. *)
Definition getitem (i j : Z) (m : ndarray) : result Z :=
  r <- axis_index i (n_rows m) ;;
  c <- axis_index j (n_cols m) ;;
  Ok (cell m r c).

(** [m[i, j] = v]. *)
Definition setitem (i j v : Z) (m : ndarray) : result ndarray :=
  r <- axis_index i (n_rows m) ;;
  c <- axis_index j (n_cols m) ;;
  Ok {| n_rows := n_rows m; n_cols := n_cols m;
        cell := fun r' c' =>
                  if (r' =? r) && (c' =? c) then v else cell m r' c' |}.

(** Whether [(r, c)] lies in the slice [1:-1, 1:-1]. *)
Definition inside (m : ndarray) (r c : Z) : bool :=
  (1 <=? r) && (r <? n_rows m - 1) && (1 <=? c) && (c <? n_cols m - 1).

(** [m[1:-1, 1:-1] = v]. *)
Definition set_inside (v : Z) (m : ndarray) : ndarray :=
  {| n_rows := n_rows m; n_cols := n_cols m;
     cell := fun r c => if inside m r c then v else cell m r c |}.

(** The [h] by [w] map of ones with zeros inside, before the start and the
    target are marked. *)
Definition bordered (h w : Z) : ndarray :=
  set_inside 0 {| n_rows := h; n_cols := w; cell := fun _ _ => 1 |}.

(** [np.random.randint(low, high)], from a raw draw of the generator. *)
Definition np_random_randint (low high draw : Z) : result Z :=
  if low <? high then Ok (low + draw mod (high - low)) else Raise ValueError.

(** The loop [while map[new_pos] == 3: new_pos = (randint, randint)];
    [draws] are the generator's raw draws and [k] the next one to use.
    [None]: the loop is still running after [fuel] iterations. *)
Fixpoint redraw (fuel : nat) (draws : nat -> Z) (k : nat) (map : ndarray)
         (max_x max_y : Z) (new_pos : Z * Z) : option (result (Z * Z)) :=
  match getitem (fst new_pos) (snd new_pos) map with
  | Raise e => Some (Raise e)
  | Ok v =>
      if v =? 3 then
        match fuel with
        | O => None
        | S fuel' =>
            match np_random_randint 1 max_x (draws k) with
            | Raise e => Some (Raise e)
            | Ok x =>
                match np_random_randint 1 max_y (draws (S k)) with
                | Raise e => Some (Raise e)
                | Ok y => redraw fuel' draws (S (S k)) map max_x max_y (x, y)
                end
            end
        end
      else Some (Ok new_pos)
  end.

Section Wrapper.

(** The grid-world environment underneath is not part of the repository:
    its two methods used here are parameters. *)
Variables (Obs St : Type).
Variable _gridmap_to_observation : ndarray -> Obs.
Variable _get_agent_start_target_state : ndarray -> St * St.

Record t : Type := { random_start : bool; map_shape : Z * Z }.

(** The fields of the unwrapped environment that the method assigns. *)
Record uenv : Type := {
  start_grid_map : ndarray;
  current_grid_map : ndarray;
  observation : Obs;
  grid_map_shape : Z * Z;
  agent_start_state : St;
  agent_target_state : St;
  agent_state : St
}.

(** The start map: walls on the border, the start cell (3) and the target
    cell (4). *)
Definition start_map (self : t) (draws : nat -> Z) (fuel : nat)
  : option (result ndarray) :=
  let (h, w) := map_shape self in
  match np_ones h w with
  | Raise e => Some (Raise e)
  | Ok map =>
      let map := set_inside 0 map in
      if random_start self then
        let max_x := h - 1 in
        let max_y := w - 1 in
        match (x <- np_random_randint 1 max_x (draws 0%nat) ;;
               y <- np_random_randint 1 max_y (draws 1%nat) ;;
               map <- setitem x y 3 map ;;
               x' <- np_random_randint 1 max_x (draws 2%nat) ;;
               y' <- np_random_randint 1 max_y (draws 3%nat) ;;
               Ok (map, (x', y'))) with
        | Raise e => Some (Raise e)
        | Ok (map, new_pos) =>
            match redraw fuel draws 4 map max_x max_y new_pos with
            | None => None
            | Some (Raise e) => Some (Raise e)
            | Some (Ok new_pos) =>
                Some (setitem (fst new_pos) (snd new_pos) 4 map)
            end
        end
      else
        Some (map <- setitem (-3) 2 3 map ;; setitem (-6) 4 4 map)
  end.

Definition _reset_start_map (self : t) (draws : nat -> Z) (fuel : nat)
  : option (result uenv) :=
  match start_map self draws fuel with
  | None => None
  | Some (Raise e) => Some (Raise e)
  | Some (Ok map) =>
      let states := _get_agent_start_target_state map in
      Some (Ok {| start_grid_map := map;
                  current_grid_map := map;
                  observation := _gridmap_to_observation map;
                  grid_map_shape := (n_rows map, n_cols map);
                  agent_start_state := fst states;
                  agent_target_state := snd states;
                  agent_state := fst states |})
  end.

End Wrapper.

Arguments start_grid_map {Obs St} _.
Arguments current_grid_map {Obs St} _.
Arguments observation {Obs St} _.
Arguments grid_map_shape {Obs St} _.
Arguments agent_start_state {Obs St} _.
Arguments agent_target_state {Obs St} _.
Arguments agent_state {Obs St} _.
Arguments _reset_start_map {Obs St} _ _ _ _ _.

(** Whether [(r, c)] is a position of an [h] by [w] array. *)
Definition in_grid (h w r c : Z) : Prop := 0 <= r < h /\ 0 <= c < w.

(** A start map with its start cell at [start] and its target at [target]:
    those two cells hold 3 and 4, every other cell of the border holds 1
    and every other cell inside holds 0. *)
Definition is_start_map (h w : Z) (start target : Z * Z) (m : ndarray)
  : Prop :=
  n_rows m = h /\ n_cols m = w /\
  forall r c, in_grid h w r c ->
    cell m r c =
      if (r =? fst target) && (c =? snd target) then 4
      else if (r =? fst start) && (c =? snd start) then 3
      else if (1 <=? r) && (r <? h - 1) && (1 <=? c) && (c <? w - 1) then 0
      else 1.

End SimpleMapWrapper.

(* ================================================================== *)
(** ** models/base.py: DDDQNNetwork, on tensor shapes *)

(** [x.mean(dim=1, keepdim=True)]. *)
Definition mean_dim1_keepdim (s : shape) : result shape :=
  match s with
  | b :: _ :: rest => Ok (b :: 1 :: rest)
  | _ => Raise IndexError
  end.

(** Broadcasting of two shapes, last dimensions first. *)
Fixpoint broadcast_rev (l1 l2 : list Z) : result (list Z) :=
  match l1, l2 with
  | [], l => Ok l
  | l, [] => Ok l
  | a :: l1', b :: l2' =>
      rest <- broadcast_rev l1' l2' ;;
      if a =? b then Ok (a :: rest)
      else if a =? 1 then Ok (b :: rest)
      else if b =? 1 then Ok (a :: rest)
      else Raise RuntimeError
  end.

Definition broadcast (s1 s2 : shape) : result shape :=
  r <- broadcast_rev (rev s1) (rev s2) ;; Ok (rev r).

Module DDDQNNetworkShapes.

Record t : Type := {
  encoder : Sequential;
  encoder_output_size : Z;
  value_layers : Sequential;
  advantage_layers : Sequential
}.

(** The constructor with [encoder] and [hidden_size] left at [None];
    [_init_weights] changes no shape. *)
Definition __init__ (obs_dim : shape) (n_acts : Z) : result t :=
  encoder <- create_encoder_from_obs_dim obs_dim ;;
  test_input <- torch_zeros (1 :: obs_dim) ;;
  out <- net_forward encoder test_input ;;
  let encoder_output_size := numel out in
  hidden_size <- get_hidden_size_from_obs_dim obs_dim ;;
  v1 <- nn_Linear encoder_output_size hidden_size ;;
  v2 <- nn_Linear hidden_size 1 ;;
  a1 <- nn_Linear encoder_output_size hidden_size ;;
  a2 <- nn_Linear hidden_size n_acts ;;
  Ok {| encoder := encoder;
        encoder_output_size := encoder_output_size;
        value_layers := [Flatten; v1; ReLU; v2];
        advantage_layers := [Flatten; a1; ReLU; a2] |}.

Definition forward (self : t) (x : shape) : result shape :=
  z <- net_forward (encoder self) x ;;
  values <- net_forward (value_layers self) z ;;
  advantages <- net_forward (advantage_layers self) z ;;
  advantage_means <- mean_dim1_keepdim advantages ;;
  advantages <- broadcast advantages advantage_means ;;
  qs <- broadcast values advantages ;;
  Ok qs.

End DDDQNNetworkShapes.

(* ================================================================== *)
(** ** models/base.py: DDDQNNetwork, on floating-point values

    The same network as [DDDQNNetwork], with IEEE binary64 scalars in place
    of exact rationals: sums run left to right, and every operation rounds,
    overflows to infinity and propagates NaN as the format prescribes.
    The tensor library's default format is narrower (binary32), so what
    overflows here overflows there. *)

Module DDDQNNetworkFloat.

Definition float := PrimFloat.float.

Definition vec := list float.

Definition vsum (v : vec) : float := fold_left PrimFloat.add v 0%float.

Fixpoint dot (u v : vec) : float :=
  match u, v with
  | a :: u', b :: v' => PrimFloat.add (PrimFloat.mul a b) (dot u' v')
  | _, _ => 0%float
  end.

(** The number of entries, as a float. *)
Fixpoint float_of_nat (n : nat) : float :=
  match n with
  | O => 0%float
  | S k => PrimFloat.add (float_of_nat k) 1%float
  end.

(** [x.mean(dim=1)] on one row. *)
Definition mean (v : vec) : float :=
  PrimFloat.div (vsum v) (float_of_nat (length v)).

Record linear : Type := { weight : list vec; bias : vec }.

Definition linear_apply (l : linear) (x : vec) : vec :=
  map (fun wb => PrimFloat.add (dot (fst wb) x) (snd wb))
      (combine (weight l) (bias l)).

(** [nn.ReLU]: negative entries become 0, NaN stays NaN. *)
Definition relu (x : vec) : vec :=
  map (fun a => if PrimFloat.ltb a 0%float then 0%float else a) x.

Definition fill_ (c : float) (l : linear) : linear :=
  {| weight := map (map (fun _ => c)) (weight l);
     bias := map (fun _ => c) (bias l) |}.

Record t : Type := {
  encoder : vec -> vec;
  value_hidden : linear;
  value_out_weight : vec;
  value_out_bias : float;
  advantage_hidden : linear;
  advantage_out : linear
}.

Definition _init_weights (self : t) : t :=
  {| encoder := encoder self;
     value_hidden := value_hidden self;
     value_out_weight := map (fun _ => 0%float) (value_out_weight self);
     value_out_bias := 0%float;
     advantage_hidden := advantage_hidden self;
     advantage_out := fill_ 0%float (advantage_out self) |}.

Definition __init__ (params : t) : t := _init_weights params.

Definition value_layers (self : t) (z : vec) : float :=
  PrimFloat.add
    (dot (value_out_weight self) (relu (linear_apply (value_hidden self) z)))
    (value_out_bias self).

Definition advantage_layers (self : t) (z : vec) : vec :=
  linear_apply (advantage_out self)
               (relu (linear_apply (advantage_hidden self) z)).

(** The mean-subtracted advantages of [forward]. *)
Definition centred_advantages (self : t) (x : vec) : vec :=
  let advantages := advantage_layers self (encoder self x) in
  let advantage_means := mean advantages in
  map (fun a => PrimFloat.sub a advantage_means) advantages.

Definition forward (self : t) (x : vec) : vec :=
  let values := value_layers self (encoder self x) in
  map (fun a => PrimFloat.add values a) (centred_advantages self x).

End DDDQNNetworkFloat.




(* ================================================================== *)
(** * Properties *)

Ltac unfold_factories :=
  unfold create_encoder_from_obs_dim, create_decoder_from_obs_dim,
    get_hidden_size_from_obs_dim, create_simple_1D_encoder,
    create_simple_1D_decoder, create_gridworld_encoder,
    create_gridworld_decoder, create_atari_encoder, create_atari_decoder,
    nn_Linear, nn_Conv2d, nn_ConvTranspose2d, py_index, too_large,
    GYM_HIDDEN_SIZE, GRIDWORLD_HIDDEN_SIZE, ATARI_HIDDEN_SIZE.

Example hidden_32_4 : get_hidden_size_from_obs_dim [32; 4] = Ok 32.
Proof. reflexivity. Qed.

Example hidden_1_20_20 : get_hidden_size_from_obs_dim [1; 20; 20] = Ok 64.
Proof. reflexivity. Qed.

Example hidden_4_84_84 : get_hidden_size_from_obs_dim [4; 84; 84] = Ok 256.
Proof. reflexivity. Qed.

Example policy_4_84_84 :
  PolicyNetwork.__init__ [4; 84; 84] 6 =
  Ok {| PolicyNetwork.encoder_output_size := 576;
        PolicyNetwork.layers :=
          [Conv2d 4 32 5 5 0; ReLU; Conv2d 32 64 5 5 0; ReLU;
           Flatten; Linear 576 256; ReLU; Linear 256 6] |}.
Proof. reflexivity. Qed.

Example policy_1_3_3 : PolicyNetwork.__init__ [1; 3; 3] 4 = Raise RuntimeError.
Proof. reflexivity. Qed.

(** *** The dispatch on the observation shape *)

Lemma positive_dims_cons (d : Z) (s : shape) :
  positive_dims (d :: s) -> 0 < d /\ positive_dims s.
Proof. intros H. inversion H; subst. split; assumption. Qed.

Lemma leb_32_cases (d : Z) :
  (d <=? 32) = true /\ d <= 32 \/ (d <=? 32) = false /\ 32 < d.
Proof. destruct (Z.leb_spec d 32); [left | right]; split; auto. Qed.

Lemma ltb_0_false (d : Z) : 0 <= d -> (d <? 0) = false.
Proof. intros H. apply Z.ltb_ge. exact H. Qed.

(** C1, as amended.  On every shape of positive dimensions with at least two
    elements, [get_hidden_size_from_obs_dim] and
    [create_encoder_from_obs_dim] follow the policy of the specification:
    flat with width 32 for a length-2 shape whose first element is at most
    32, the unsupported-shape exception for a length-2 shape whose first
    element exceeds 32, and otherwise small-grid with width 64 when the
    second element is at most 32 and large-grid with width 256 when it is
    larger.  Shapes with fewer than two elements are left out. *)
Theorem classifier_follows_policy_two_or_more (s : shape) :
  (2 <= length s)%nat -> positive_dims s -> classifier_follows_policy s.
Proof.
  intros Hlen Hpos.
  destruct s as [|d0 [|d1 rest]]; simpl in Hlen; try lia.
  apply positive_dims_cons in Hpos as [H0 Hpos].
  apply positive_dims_cons in Hpos as [H1 _].
  destruct rest as [|d2 rest].
  - (* length 2 *)
    unfold classifier_follows_policy, spec_policy.
    destruct (leb_32_cases d0) as [[E _]|[E _]]; rewrite E.
    + split.
      * unfold_factories. simpl. rewrite E. reflexivity.
      * unfold_factories. simpl. rewrite E. simpl.
        rewrite (ltb_0_false (d0 * d1)) by nia. simpl.
        eexists. split; reflexivity.
    + split; unfold_factories; simpl; rewrite E; reflexivity.
  - (* length 3 or more *)
    unfold classifier_follows_policy, spec_policy, second_at_most_32.
    destruct (leb_32_cases d1) as [[E _]|[E _]]; rewrite E.
    + split.
      * unfold_factories. simpl. rewrite E. reflexivity.
      * unfold_factories. simpl. rewrite E. simpl.
        rewrite (ltb_0_false d0) by lia. simpl.
        eexists. split; reflexivity.
    + split.
      * unfold_factories. simpl. rewrite E. reflexivity.
      * unfold_factories. simpl. rewrite E. simpl.
        rewrite (ltb_0_false d0) by lia. simpl.
        eexists. split; reflexivity.
Qed.

Lemma classifier_follows_policy_two_or_more_witness :
  classifier_follows_policy [32; 4] /\
  classifier_follows_policy [33; 4] /\
  classifier_follows_policy [1; 20; 20] /\
  classifier_follows_policy [4; 84; 84].
Proof.
  split; [|split; [|split]];
    (apply classifier_follows_policy_two_or_more;
     [simpl; lia | repeat constructor]).
Defined.

(** C1, as stated, fails on a shape of length one: the policy sends [(5,)]
    to large-grid with width 256, while both functions of the source raise
    an index error on it. *)
Lemma classifier_breaks_policy_on_length_one :
  spec_policy [5] = Some (LargeGrid, 256) /\
  get_hidden_size_from_obs_dim [5] = Raise IndexError /\
  create_encoder_from_obs_dim [5] = Raise IndexError /\
  ~ classifier_follows_policy [5].
Proof.
  repeat split.
  unfold classifier_follows_policy. simpl. intros [H _]. discriminate H.
Qed.

(** The three shapes the specification lists, with the encoder selected. *)
Example classify_32_4 :
  get_hidden_size_from_obs_dim [32; 4] = Ok 32 /\
  create_encoder_from_obs_dim [32; 4] =
    Ok [Flatten; Linear 128 16; ReLU; Linear 16 32; ReLU].
Proof. split; reflexivity. Qed.

Example classify_1_20_20 :
  get_hidden_size_from_obs_dim [1; 20; 20] = Ok 64 /\
  create_encoder_from_obs_dim [1; 20; 20] =
    Ok [Conv2d 1 8 4 2 0; ReLU; Conv2d 8 16 3 1 0; ReLU].
Proof. split; reflexivity. Qed.

Example classify_4_84_84 :
  get_hidden_size_from_obs_dim [4; 84; 84] = Ok 256 /\
  create_encoder_from_obs_dim [4; 84; 84] =
    Ok [Conv2d 4 32 5 5 0; ReLU; Conv2d 32 64 5 5 0; ReLU].
Proof. split; reflexivity. Qed.

(** C4.  On every length-2 shape whose leading dimension exceeds 32, both
    [get_hidden_size_from_obs_dim] and [create_encoder_from_obs_dim] raise
    the unsupported-shape exception; neither returns a width or an
    encoder. *)
Theorem large_flat_shape_rejected (d0 d1 : Z) :
  32 < d0 ->
  get_hidden_size_from_obs_dim [d0; d1] = Raise too_large /\
  create_encoder_from_obs_dim [d0; d1] = Raise too_large.
Proof.
  intros H.
  assert (E : (d0 <=? 32) = false) by (apply Z.leb_gt; exact H).
  split; unfold_factories; simpl; rewrite E; reflexivity.
Qed.

Lemma large_flat_shape_rejected_witness :
  get_hidden_size_from_obs_dim [33; 4] = Raise too_large /\
  create_encoder_from_obs_dim [33; 4] = Raise too_large.
Proof. apply (large_flat_shape_rejected 33 4). lia. Defined.

(** C10.  On every shape of length one, [get_hidden_size_from_obs_dim] and
    [create_encoder_from_obs_dim] raise an index error (they read
    [obs_dim[1]]); [create_simple_1D_decoder] raises an index error too (it
    reads [input_dim[1]]), and that is the call
    [create_decoder_from_obs_dim] makes when the only element is at most 32.
    No shape of length one gets a result from any of the three. *)
Theorem length_one_shape_always_raises (d0 : Z) :
  get_hidden_size_from_obs_dim [d0] = Raise IndexError /\
  create_encoder_from_obs_dim [d0] = Raise IndexError /\
  create_simple_1D_decoder [d0] = Raise IndexError /\
  create_decoder_from_obs_dim [d0] =
    (if d0 <=? 32 then create_simple_1D_decoder [d0] else Raise too_large) /\
  create_decoder_from_obs_dim [d0] =
    Raise (if d0 <=? 32 then IndexError else too_large).
Proof.
  repeat split; unfold_factories; simpl; try reflexivity;
    destruct (d0 <=? 32); reflexivity.
Qed.

Lemma decoder_off_length_one_is_convolutional (s : shape) (d : Sequential) :
  length s <> 1%nat ->
  create_decoder_from_obs_dim s = Ok d ->
  decoder_family d = Some SmallGrid \/ decoder_family d = Some LargeGrid.
Proof.
  intros Hlen H.
  unfold create_decoder_from_obs_dim in H.
  destruct (length s =? 1)%nat eqn:E; [apply Nat.eqb_eq in E; contradiction|].
  destruct s as [|d0 [|d1 rest]]; simpl in H; try discriminate.
  destruct (d1 <=? 32).
  - unfold create_gridworld_decoder, nn_ConvTranspose2d, nn_Conv2d in H.
    simpl in H. destruct (d0 <? 0); simpl in H; try discriminate.
    injection H as <-. left. reflexivity.
  - unfold create_atari_decoder, nn_ConvTranspose2d, nn_Conv2d in H.
    simpl in H. destruct (d0 <? 0); simpl in H; try discriminate.
    injection H as <-. right. reflexivity.
Qed.

(** C6.  The encoder side and the hidden-width function take the flat
    branch on length 2, the decoder side on length 1.  For every length-2
    shape of positive dimensions with first element at most 32 the encoder
    factory returns the simple 1-D encoder and the width is 32, while the
    decoder factory returns a convolutional decoder for that same shape; the
    decoder factory calls [create_simple_1D_decoder] on the length-1 shape
    with that first element, and off length 1 it never returns a flat
    decoder. *)
Theorem flat_dispatch_differs (d0 d1 : Z) :
  0 < d0 <= 32 -> 0 < d1 ->
  create_encoder_from_obs_dim [d0; d1] =
    Ok [Flatten; Linear (d0 * d1) 16; ReLU; Linear 16 32; ReLU] /\
  create_encoder_from_obs_dim [d0; d1] = create_simple_1D_encoder [d0; d1] /\
  get_hidden_size_from_obs_dim [d0; d1] = Ok 32 /\
  (exists d, create_decoder_from_obs_dim [d0; d1] = Ok d /\
             decoder_family d =
               Some (if d1 <=? 32 then SmallGrid else LargeGrid)) /\
  create_decoder_from_obs_dim [d0; d1] <> create_simple_1D_decoder [d0; d1] /\
  create_decoder_from_obs_dim [d0] = create_simple_1D_decoder [d0] /\
  (forall (s : shape) (d : Sequential),
      length s <> 1%nat -> create_decoder_from_obs_dim s = Ok d ->
      decoder_family d <> Some Flat).
Proof.
  intros [Hpos Hle] H1.
  assert (E : (d0 <=? 32) = true) by (apply Z.leb_le; exact Hle).
  assert (N0 : (d0 <? 0) = false) by (apply ltb_0_false; lia).
  assert (N : (d0 * d1 <? 0) = false) by (apply ltb_0_false; nia).
  repeat split.
  - unfold_factories. simpl. rewrite E. simpl. rewrite N. reflexivity.
  - unfold_factories. simpl. rewrite E. reflexivity.
  - unfold_factories. simpl. rewrite E. reflexivity.
  - unfold_factories. simpl. rewrite N0.
    destruct (d1 <=? 32); simpl; eexists; split; reflexivity.
  - unfold_factories. simpl. rewrite N0, N.
    destruct (d1 <=? 32); simpl; discriminate.
  - unfold_factories. simpl. rewrite E. reflexivity.
  - intros s d Hlen Hd.
    destruct (decoder_off_length_one_is_convolutional s d Hlen Hd) as [F|F];
      rewrite F; discriminate.
Qed.

Lemma flat_dispatch_differs_witness :
  create_encoder_from_obs_dim [32; 4] =
    Ok [Flatten; Linear 128 16; ReLU; Linear 16 32; ReLU] /\
  (exists d, create_decoder_from_obs_dim [32; 4] = Ok d /\
             decoder_family d = Some SmallGrid).
Proof.
  destruct (flat_dispatch_differs 32 4) as (He & _ & _ & Hd & _); try lia.
  split; [exact He | exact Hd].
Defined.

(** *** Shapes through the assembled networks *)

Lemma bind_ok {A B} (c : result A) (k : A -> result B) (b : B) :
  bind c k = Ok b -> exists a, c = Ok a /\ k a = Ok b.
Proof. destruct c; simpl; intros H; [eauto | discriminate]. Qed.

Ltac bind_inv H :=
  let a := fresh "a" in
  let E := fresh "E" in
  apply bind_ok in H; destruct H as (a & E & H).

Lemma net_forward_app (n1 n2 : Sequential) (s : shape) :
  net_forward (n1 ++ n2) s = (s' <- net_forward n1 s ;; net_forward n2 s').
Proof.
  revert s. induction n1 as [|l n1 IH]; intros s; simpl; [reflexivity|].
  destruct (layer_forward l s); simpl; [apply IH | reflexivity].
Qed.

Lemma nn_Linear_ok (i o : Z) (l : layer) :
  nn_Linear i o = Ok l -> l = Linear i o.
Proof.
  unfold nn_Linear. destruct ((i <? 0) || (o <? 0)); intros H;
    [discriminate | injection H as <-; reflexivity].
Qed.

Lemma nn_Conv2d_ok (ci co k s p : Z) (l : layer) :
  nn_Conv2d ci co k s p = Ok l -> l = Conv2d ci co k s p.
Proof.
  unfold nn_Conv2d. destruct ((ci <? 0) || (co <? 0)); intros H;
    [discriminate | injection H as <-; reflexivity].
Qed.

Lemma torch_zeros_ok (dims s : shape) : torch_zeros dims = Ok s -> s = dims.
Proof.
  unfold torch_zeros. destruct (forallb _ dims); intros H;
    [injection H as <-; reflexivity | discriminate].
Qed.

(** A convolution treats the batch axis as a parameter: what it returns on
    one sample it returns on every batch. *)
Lemma conv_batch (ci co k st p n c h w : Z) (out : shape) :
  layer_forward (Conv2d ci co k st p) [n; c; h; w] = Ok out ->
  exists h' w', out = [n; co; h'; w'] /\
    forall B, layer_forward (Conv2d ci co k st p) [B; c; h; w]
              = Ok [B; co; h'; w'].
Proof.
  simpl. destruct (c =? ci); [|discriminate].
  destruct (conv_out h k st p) as [h'|]; simpl; [|discriminate].
  destruct (conv_out w k st p) as [w'|]; simpl; [|discriminate].
  intros H. injection H as <-. exists h', w'. split; reflexivity.
Qed.

Lemma conv_stack_batch (c1 c2 : layer) (ci co k st p ci2 co2 k2 st2 p2 : Z)
      (d0 d1 d2 : Z) (out : shape) :
  c1 = Conv2d ci co k st p -> c2 = Conv2d ci2 co2 k2 st2 p2 ->
  net_forward [c1; ReLU; c2; ReLU] [1; d0; d1; d2] = Ok out ->
  exists h w, out = [1; co2; h; w] /\
    forall B, net_forward [c1; ReLU; c2; ReLU] [B; d0; d1; d2]
              = Ok [B; co2; h; w].
Proof.
  intros -> -> H.
  cbn [net_forward] in H.
  bind_inv H. apply conv_batch in E as (h1 & w1 & -> & B1).
  cbn [layer_forward bind] in H.
  bind_inv H. apply conv_batch in E as (h2 & w2 & -> & B2).
  cbn [layer_forward bind] in H. injection H as <-.
  exists h2, w2. split; [reflexivity|].
  intros B. cbn [net_forward]. rewrite B1. cbn [bind].
  change (layer_forward ReLU [B; co; h1; w1]) with (Ok [B; co; h1; w1]).
  cbn [bind]. rewrite B2. reflexivity.
Qed.

(** Shape inference by the trial forward pass: whatever the selected encoder
    returns on the zero tensor with batch size 1, it returns that with the
    batch size in front on every batch, and the result has at least one
    dimension after the batch axis. *)
Lemma encoder_batch (obs_dim : shape) (enc : Sequential) (out : shape) :
  create_encoder_from_obs_dim obs_dim = Ok enc ->
  net_forward enc (1 :: obs_dim) = Ok out ->
  exists d rest, out = 1 :: d :: rest /\
    forall B, net_forward enc (B :: obs_dim) = Ok (B :: d :: rest).
Proof.
  intros Henc Hout.
  destruct obs_dim as [|d0 [|d1 [|d2 [|d3 rest]]]].
  - discriminate Henc.
  - discriminate Henc.
  - (* flat *)
    unfold create_encoder_from_obs_dim in Henc. simpl in Henc.
    destruct (d0 <=? 32); [|discriminate].
    unfold create_simple_1D_encoder in Henc. simpl in Henc.
    bind_inv Henc. apply nn_Linear_ok in E as ->.
    simpl in Henc. injection Henc as <-.
    simpl in Hout. rewrite Z.mul_1_r, Z.eqb_refl in Hout. simpl in Hout.
    injection Hout as <-.
    exists 32, []. split; [reflexivity|].
    intros B. simpl. rewrite Z.mul_1_r, Z.eqb_refl. reflexivity.
  - (* one image *)
    unfold create_encoder_from_obs_dim in Henc. simpl in Henc.
    destruct (d1 <=? 32).
    + unfold create_gridworld_encoder in Henc.
      bind_inv Henc. apply nn_Conv2d_ok in E.
      bind_inv Henc. apply nn_Conv2d_ok in E0.
      injection Henc as <-.
      destruct (conv_stack_batch _ _ _ _ _ _ _ _ _ _ _ _ _ _ _ _ E E0 Hout)
        as (h & w & -> & HB).
      exists 16, [h; w]. split; [reflexivity | exact HB].
    + unfold create_atari_encoder in Henc.
      bind_inv Henc. apply nn_Conv2d_ok in E.
      bind_inv Henc. apply nn_Conv2d_ok in E0.
      injection Henc as <-.
      destruct (conv_stack_batch _ _ _ _ _ _ _ _ _ _ _ _ _ _ _ _ E E0 Hout)
        as (h & w & -> & HB).
      exists 64, [h; w]. split; [reflexivity | exact HB].
  - (* four or more dimensions: no convolution takes the trial input *)
    unfold create_encoder_from_obs_dim in Henc. simpl in Henc.
    destruct (d1 <=? 32).
    + unfold create_gridworld_encoder in Henc.
      bind_inv Henc. apply nn_Conv2d_ok in E as ->.
      bind_inv Henc. injection Henc as <-. discriminate Hout.
    + unfold create_atari_encoder in Henc.
      bind_inv Henc. apply nn_Conv2d_ok in E as ->.
      bind_inv Henc. injection Henc as <-. discriminate Hout.
Qed.

Lemma numel_batch_one (s : shape) : numel (1 :: s) = numel s.
Proof. unfold numel. simpl. destruct (fold_right Z.mul 1 s); reflexivity. Qed.

(** C7, as amended.  Whenever the constructor [PolicyNetwork(obs_dim,
    n_acts)] succeeds, the network is the selected encoder followed by
    flatten, a linear layer from the inferred encoder width to the hidden
    width, the activation and a linear layer to [n_acts], and on every batch
    of [b] observations of shape [obs_dim] its forward pass returns a tensor
    of shape [(b, n_acts)]. *)
Theorem policy_forward_shape (obs_dim : shape) (n_acts : Z)
        (net : PolicyNetwork.t) :
  PolicyNetwork.__init__ obs_dim n_acts = Ok net ->
  (exists encoder hidden,
      create_encoder_from_obs_dim obs_dim = Ok encoder /\
      get_hidden_size_from_obs_dim obs_dim = Ok hidden /\
      PolicyNetwork.layers net =
        encoder ++ [Flatten;
                    Linear (PolicyNetwork.encoder_output_size net) hidden;
                    ReLU; Linear hidden n_acts]) /\
  (forall b, 0 <= b ->
      PolicyNetwork.forward net (b :: obs_dim) = Ok [b; n_acts]).
Proof.
  unfold PolicyNetwork.__init__. intros H.
  bind_inv H. rename a into enc, E into Henc.
  bind_inv H. apply torch_zeros_ok in E as ->.
  bind_inv H. rename a into out, E into Hout.
  bind_inv H. rename a into hidden, E into Hhid.
  bind_inv H. apply nn_Linear_ok in E as ->.
  bind_inv H. apply nn_Linear_ok in E as ->.
  injection H as <-. simpl.
  split; [exists enc, hidden; auto|].
  intros b _. unfold PolicyNetwork.forward. simpl.
  destruct (encoder_batch _ _ _ Henc Hout) as (d & rest & -> & HB).
  rewrite net_forward_app, HB. cbn [bind net_forward layer_forward].
  rewrite numel_batch_one.
  cbn [linear_shape bind]. rewrite Z.eqb_refl. cbn [bind linear_shape].
  rewrite Z.eqb_refl. reflexivity.
Qed.

Lemma policy_forward_shape_witness :
  PolicyNetwork.forward
    {| PolicyNetwork.encoder_output_size := 576;
       PolicyNetwork.layers :=
         [Conv2d 4 32 5 5 0; ReLU; Conv2d 32 64 5 5 0; ReLU;
          Flatten; Linear 576 256; ReLU; Linear 256 6] |}
    [32; 4; 84; 84] = Ok [32; 6].
Proof.
  apply (policy_forward_shape [4; 84; 84] 6); [reflexivity | lia].
Defined.

(** The constructor does succeed on the flat shapes. *)
Lemma policy_constructs_on_flat (d0 d1 n_acts : Z) :
  0 < d0 <= 32 -> 0 < d1 -> 0 <= n_acts ->
  PolicyNetwork.__init__ [d0; d1] n_acts =
  Ok {| PolicyNetwork.encoder_output_size := 32;
        PolicyNetwork.layers :=
          [Flatten; Linear (d0 * d1) 16; ReLU; Linear 16 32; ReLU;
           Flatten; Linear 32 32; ReLU; Linear 32 n_acts] |}.
Proof.
  intros [Hpos Hle] H1 Hn.
  unfold PolicyNetwork.__init__.
  unfold_factories. unfold torch_zeros. simpl.
  assert (E : (d0 <=? 32) = true) by (apply Z.leb_le; exact Hle).
  rewrite E. simpl.
  rewrite (ltb_0_false (d0 * d1)) by nia. simpl.
  replace (0 <=? d0) with true by (symmetry; apply Z.leb_le; lia).
  replace (0 <=? d1) with true by (symmetry; apply Z.leb_le; lia).
  simpl. rewrite Z.mul_1_r, Z.eqb_refl. simpl.
  rewrite (ltb_0_false n_acts) by lia. reflexivity.
Qed.

Lemma torch_zeros_nonneg (dims : shape) :
  Forall (fun d => 0 <= d) dims -> torch_zeros dims = Ok dims.
Proof.
  intros H. unfold torch_zeros.
  replace (forallb (fun d => 0 <=? d) dims) with true; [reflexivity|].
  symmetry. apply forallb_forall. intros d Hd. apply Z.leb_le.
  rewrite Forall_forall in H. apply H, Hd.
Qed.

Lemma numel_nonneg (s : shape) : Forall (fun d => 0 <= d) s -> 0 <= numel s.
Proof.
  induction 1 as [|d s Hd _ IH]; unfold numel in *; simpl; [lia | nia].
Qed.

(** Size of a convolution output, and a lower bound on it. *)
Lemma conv_out_at_least (h k s p lo : Z) :
  0 < s -> k + (lo - 1) * s <= h + 2 * p -> 1 <= lo ->
  exists o, conv_out h k s p = Ok o /\ lo <= o.
Proof.
  intros Hs Hh Hlo. unfold conv_out.
  replace (h + 2 * p <? k) with false by (symmetry; apply Z.ltb_ge; nia).
  eexists. split; [reflexivity|].
  assert (H : lo - 1 <= (h + 2 * p - k) / s).
  { apply Z.div_le_lower_bound; [exact Hs | nia]. }
  lia.
Qed.

(** The two convolutional encoders accept images that are large enough. *)
Lemma gridworld_encoder_accepts (c h w : Z) :
  8 <= h -> 8 <= w ->
  exists h' w', 1 <= h' /\ 1 <= w' /\
    net_forward [Conv2d c 8 4 2 0; ReLU; Conv2d 8 16 3 1 0; ReLU] [1; c; h; w]
    = Ok [1; 16; h'; w'].
Proof.
  intros Hh Hw.
  destruct (conv_out_at_least h 4 2 0 3) as (h1 & Eh1 & Bh1); try lia.
  destruct (conv_out_at_least w 4 2 0 3) as (w1 & Ew1 & Bw1); try lia.
  destruct (conv_out_at_least h1 3 1 0 1) as (h2 & Eh2 & Bh2); try lia.
  destruct (conv_out_at_least w1 3 1 0 1) as (w2 & Ew2 & Bw2); try lia.
  exists h2, w2. split; [exact Bh2 | split; [exact Bw2|]].
  cbn [net_forward layer_forward]. rewrite Z.eqb_refl, Eh1, Ew1.
  cbn [bind]. rewrite Eh2, Ew2. reflexivity.
Qed.

Lemma atari_encoder_accepts (c h w : Z) :
  25 <= h -> 25 <= w ->
  exists h' w', 1 <= h' /\ 1 <= w' /\
    net_forward [Conv2d c 32 5 5 0; ReLU; Conv2d 32 64 5 5 0; ReLU] [1; c; h; w]
    = Ok [1; 64; h'; w'].
Proof.
  intros Hh Hw.
  destruct (conv_out_at_least h 5 5 0 5) as (h1 & Eh1 & Bh1); try lia.
  destruct (conv_out_at_least w 5 5 0 5) as (w1 & Ew1 & Bw1); try lia.
  destruct (conv_out_at_least h1 5 5 0 1) as (h2 & Eh2 & Bh2); try lia.
  destruct (conv_out_at_least w1 5 5 0 1) as (w2 & Ew2 & Bw2); try lia.
  exists h2, w2. split; [exact Bh2 | split; [exact Bw2|]].
  cbn [net_forward layer_forward]. rewrite Z.eqb_refl, Eh1, Ew1.
  cbn [bind]. rewrite Eh2, Ew2. reflexivity.
Qed.

(** The constructor succeeds on images (c, h, w) whose sides are at least 8,
    and whose width is at least 25 when the height exceeds 32. *)
Lemma policy_constructs_on_images (c h w n_acts : Z) :
  0 < c -> 8 <= h -> 8 <= w -> (32 < h -> 25 <= w) -> 0 <= n_acts ->
  exists net, PolicyNetwork.__init__ [c; h; w] n_acts = Ok net.
Proof.
  intros Hc Hh Hw Hbig Hn.
  unfold PolicyNetwork.__init__.
  rewrite torch_zeros_nonneg by (repeat constructor; lia).
  unfold create_encoder_from_obs_dim, get_hidden_size_from_obs_dim.
  cbn [length Nat.eqb py_index nth_error bind].
  destruct (leb_32_cases h) as [[E _]|[E Hgt]]; rewrite E.
  - destruct (gridworld_encoder_accepts c h w Hh Hw)
      as (h' & w' & Bh & Bw & Hf).
    unfold create_gridworld_encoder, nn_Conv2d.
    rewrite (ltb_0_false c) by lia. cbn [orb Z.ltb Z.compare bind].
    rewrite Hf. cbn [bind]. unfold nn_Linear, GRIDWORLD_HIDDEN_SIZE.
    rewrite (ltb_0_false (numel _))
      by (apply numel_nonneg; repeat constructor; lia).
    rewrite (ltb_0_false n_acts) by lia.
    cbn [orb Z.ltb Z.compare bind]. eexists. reflexivity.
  - destruct (atari_encoder_accepts c h w ltac:(lia) (Hbig Hgt))
      as (h' & w' & Bh & Bw & Hf).
    unfold create_atari_encoder, nn_Conv2d.
    rewrite (ltb_0_false c) by lia. cbn [orb Z.ltb Z.compare bind].
    rewrite Hf. cbn [bind]. unfold nn_Linear, ATARI_HIDDEN_SIZE.
    rewrite (ltb_0_false (numel _))
      by (apply numel_nonneg; repeat constructor; lia).
    rewrite (ltb_0_false n_acts) by lia.
    cbn [orb Z.ltb Z.compare bind]. eexists. reflexivity.
Qed.

Example policy_1_20_20 :
  PolicyNetwork.__init__ [1; 20; 20] 4 =
  Ok {| PolicyNetwork.encoder_output_size := 784;
        PolicyNetwork.layers :=
          [Conv2d 1 8 4 2 0; ReLU; Conv2d 8 16 3 1 0; ReLU;
           Flatten; Linear 784 64; ReLU; Linear 64 4] |}.
Proof. reflexivity. Qed.

(** C7, as stated, fails on a supported shape: [(1, 3, 3)] is accepted by
    architecture selection (small-grid, width 64), but the first convolution
    has a 4x4 kernel, the trial forward pass raises, and no policy network
    exists to return logits. *)
Lemma policy_fails_on_tiny_grid :
  supported_shape [1; 3; 3] = true /\
  get_hidden_size_from_obs_dim [1; 3; 3] = Ok 64 /\
  PolicyNetwork.__init__ [1; 3; 3] 4 = Raise RuntimeError /\
  ~ policy_returns_logits [1; 3; 3] 4 1.
Proof.
  repeat split.
  intros (net & H & _). discriminate H.
Qed.

(** *** The state-prediction model *)

Lemma view_rows_batch (b : Z) (s : shape) :
  0 < b -> view_rows b (b :: s) = Ok [b; numel s].
Proof.
  intros Hb. unfold view_rows.
  replace (numel (b :: s)) with (numel s * b)
    by (unfold numel; simpl; apply Z.mul_comm).
  rewrite Z.mod_mul by lia. rewrite Z.div_mul by lia.
  replace (0 <? b) with true by (symmetry; apply Z.ltb_lt; exact Hb).
  reflexivity.
Qed.

(** C8, as amended.  In a constructed [StatePredictionModel] the first layer
    of the transition function takes the encoder's flattened output width
    (read off the trial forward pass) plus [n_acts] inputs.  The constructor
    receives no action vector; a batch of action vectors whose width differs
    from [n_acts] is rejected with a dimension error by that first layer
    when [forward] is called. *)
Theorem world_model_action_width (obs_dim : shape) (n_acts : Z)
        (m : StatePredictionModel.t) :
  StatePredictionModel.__init__ obs_dim n_acts = Ok m ->
  (exists out hidden,
      net_forward (StatePredictionModel.downsample_convs m) (1 :: obs_dim)
        = Ok out /\
      get_hidden_size_from_obs_dim obs_dim = Ok hidden /\
      StatePredictionModel.fc m =
        [Linear (numel out + n_acts) hidden; ReLU;
         Linear hidden hidden; ReLU; Linear hidden (numel out); ReLU]) /\
  (forall b w, 0 < b -> 0 <= w -> w <> n_acts ->
      StatePredictionModel.forward m (b :: obs_dim) [b; w]
        = Raise RuntimeError).
Proof.
  unfold StatePredictionModel.__init__. intros H.
  bind_inv H. rename a into enc, E into Henc.
  bind_inv H. apply torch_zeros_ok in E as ->.
  bind_inv H. rename a into out, E into Hout.
  bind_inv H. rename a into hidden, E into Hhid.
  bind_inv H. apply nn_Linear_ok in E as ->.
  bind_inv H. apply nn_Linear_ok in E as ->.
  bind_inv H. apply nn_Linear_ok in E as ->.
  bind_inv H. injection H as <-. simpl.
  split; [exists out, hidden; auto|].
  intros b w Hb Hw Hne. unfold StatePredictionModel.forward. simpl.
  destruct (encoder_batch _ _ _ Henc Hout) as (d & rest & -> & HB).
  rewrite HB. cbn [bind py_index nth_error].
  rewrite view_rows_batch by exact Hb. cbn [bind torch_cat1].
  rewrite Z.eqb_refl. cbn [bind linear_shape].
  rewrite numel_batch_one.
  replace (numel (d :: rest) + w =? numel (d :: rest) + n_acts) with false
    by (symmetry; apply Z.eqb_neq; lia).
  reflexivity.
Qed.

Lemma world_model_action_width_witness :
  StatePredictionModel.forward world_model_4_84_84 [2; 4; 84; 84] [2; 5]
    = Raise RuntimeError.
Proof.
  apply (world_model_action_width [4; 84; 84] 3);
    [reflexivity | lia | lia | lia].
Defined.

(** C8, as stated, fails: the constructor for [(4, 84, 84)] with three
    actions succeeds, its trial forward pass involving the encoder only; the
    five-wide action batch is rejected when [forward] runs, where the
    three-wide one is accepted. *)
Lemma world_model_mismatch_surfaces_in_forward :
  StatePredictionModel.__init__ [4; 84; 84] 3 = Ok world_model_4_84_84 /\
  StatePredictionModel.forward world_model_4_84_84 [1; 4; 84; 84] [1; 5]
    = Raise RuntimeError /\
  StatePredictionModel.forward world_model_4_84_84 [1; 4; 84; 84] [1; 3]
    = Ok [1; 4; 75; 75].
Proof. repeat split; reflexivity. Qed.

(** *** The experience buffer: additions *)

Import ExperienceBufferMixin.

Lemma fix_size_keeps_most_recent {A} (l : list A) (c : Z) :
  0 < c ->
  snd (_fix_size {| buffer := l; max_size := c |}) =
  {| buffer := most_recent (Z.to_nat c) l; max_size := c |}.
Proof.
  intros Hc. unfold _fix_size, bindM, get_buffer, get_max_size, set_buffer.
  simpl. f_equal. unfold py_slice_from, most_recent.
  replace (- c <? 0) with true by (symmetry; apply Z.ltb_lt; lia).
  f_equal. lia.
Qed.

Lemma fix_size_zero_keeps_all {A} (l : list A) :
  snd (_fix_size {| buffer := l; max_size := 0 |}) =
  {| buffer := l; max_size := 0 |}.
Proof.
  unfold _fix_size, bindM, get_buffer, get_max_size, set_buffer. simpl.
  f_equal. unfold py_slice_from. simpl.
  replace (Z.to_nat (Z.min 0 (Z.of_nat (length l)))) with 0%nat by lia.
  reflexivity.
Qed.

Lemma run_call_unfold {A} (c : call A) (self : t A) :
  run_call c self =
  snd (_fix_size {| buffer := buffer self ++ added c;
                    max_size := max_size self |}).
Proof. destruct c; reflexivity. Qed.

Lemma most_recent_length {A} (c : nat) (l : list A) :
  (length (most_recent c l) <= c)%nat.
Proof. unfold most_recent. rewrite length_skipn. lia. Qed.

Lemma most_recent_short {A} (c : nat) (l : list A) :
  (length l <= c)%nat -> most_recent c l = l.
Proof.
  intros H. unfold most_recent.
  replace (length l - c)%nat with 0%nat by lia. reflexivity.
Qed.

(** Truncating before a further addition loses nothing that the truncation
    after it would keep. *)
Lemma most_recent_absorb {A} (c : nat) (l x : list A) :
  most_recent c (most_recent c l ++ x) = most_recent c (l ++ x).
Proof.
  destruct (Nat.le_gt_cases (length l) c) as [Hle|Hgt].
  - rewrite (most_recent_short c l Hle). reflexivity.
  - unfold most_recent.
    rewrite !length_app, length_skipn.
    replace (length l - (length l - c) + length x - c)%nat
      with (length x) by lia.
    replace (length l + length x - c)%nat
      with (length x + (length l - c))%nat by lia.
    rewrite <- skipn_skipn. f_equal.
    rewrite skipn_app.
    replace (length l - c - length l)%nat with 0%nat by lia.
    reflexivity.
Qed.

Lemma run_calls_most_recent {A} (cs : list (call A)) (self : t A) :
  0 < max_size self ->
  (length (buffer self) <= Z.to_nat (max_size self))%nat ->
  run_calls cs self =
  {| buffer := most_recent (Z.to_nat (max_size self))
                           (buffer self ++ all_added cs);
     max_size := max_size self |}.
Proof.
  revert self. induction cs as [|c cs IH]; intros self Hc Hlen.
  - simpl. rewrite app_nil_r, most_recent_short by exact Hlen.
    destruct self; reflexivity.
  - unfold run_calls in *. simpl.
    rewrite run_call_unfold, fix_size_keeps_most_recent by exact Hc.
    rewrite IH; simpl; [| exact Hc | apply most_recent_length].
    rewrite most_recent_absorb, app_assoc. reflexivity.
Qed.

(** With a positive capacity the buffer is a sliding window: after any
    sequence of [append_data] and [extend_data] calls on a new buffer it
    holds the most recently added [max_size] items, in insertion order, and
    never more than [max_size] of them. *)
Lemma buffer_is_sliding_window {A} (c : Z) (cs : list (call A)) :
  0 < c ->
  buffer (run_calls cs (__init__ c)) = most_recent (Z.to_nat c) (all_added cs) /\
  Z.of_nat (length (buffer (run_calls cs (__init__ c)))) <= c /\
  max_size (run_calls cs (__init__ c)) = c.
Proof.
  intros Hc.
  rewrite run_calls_most_recent; simpl; [| exact Hc | lia].
  repeat split.
  pose proof (most_recent_length (Z.to_nat c) (all_added cs)). lia.
Qed.

Example capacity_3_appends_1_to_5 :
  buffer (run_calls [Append 1; Append 2; Append 3; Append 4; Append 5]
                    (__init__ 3)) = [3; 4; 5].
Proof. reflexivity. Qed.

Lemma run_calls_zero_capacity {A} (cs : list (call A)) (l : list A) :
  run_calls cs {| buffer := l; max_size := 0 |} =
  {| buffer := l ++ all_added cs; max_size := 0 |}.
Proof.
  revert l. induction cs as [|c cs IH]; intros l.
  - simpl. rewrite app_nil_r. reflexivity.
  - unfold run_calls in *. simpl.
    rewrite run_call_unfold. simpl buffer. simpl max_size.
    rewrite fix_size_zero_keeps_all, IH, app_assoc. reflexivity.
Qed.

(** C2 at capacity 0: [buffer[-0:]] is the whole list, so nothing is ever
    evicted; after two appends the buffer of capacity 0 holds two items, and
    in general it holds everything that was added. *)
Theorem zero_capacity_buffer_keeps_everything :
  buffer (run_calls [Append 1; Append 2] (__init__ 0)) = [1; 2] /\
  forall (A : Type) (cs : list (call A)),
    buffer (run_calls cs (__init__ 0)) = all_added cs.
Proof.
  split; [reflexivity|].
  intros A cs. unfold __init__. rewrite run_calls_zero_capacity. reflexivity.
Qed.

(** *** The experience buffer: sampling *)

Lemma gather_frame {A} (data_idxs : list nat) (batch_data : list A)
      (self : t A) :
  snd (gather data_idxs batch_data self) = self.
Proof.
  revert batch_data. induction data_idxs as [|i rest IH]; intros batch_data.
  - reflexivity.
  - simpl. unfold bindM, get_buffer, lift. simpl.
    destruct (py_index (buffer self) i) as [x|e]; [apply IH | reflexivity].
Qed.

(** C9.  A call to [sample], successful or not, returns the object as it
    found it: the stored items and [max_size] are unchanged. *)
Theorem sample_leaves_buffer_unchanged {F} (g : RandomState) (n : Z)
        (replace : bool) (self : t (list F)) :
  snd (sample g n replace self) = self /\
  buffer (snd (sample g n replace self)) = buffer self /\
  max_size (snd (sample g n replace self)) = max_size self.
Proof.
  assert (H : snd (sample g n replace self) = self).
  { unfold sample, bindM, get_buffer, lift. simpl.
    destruct (np_random_choice g (length (buffer self)) n replace)
      as [idxs|e]; [|reflexivity].
    pose proof (gather_frame idxs [] self) as G.
    destruct (gather idxs [] self) as [[batch|e] self']; simpl in G; subst;
      [|reflexivity].
    destruct (np_array_shape1 batch); reflexivity. }
  rewrite H. auto.
Qed.

(** Requesting more records than are stored, without replacement, raises. *)
Lemma sample_more_than_stored_raises {F} (g : RandomState) (n : Z)
      (self : t (list F)) :
  Z.of_nat (length (buffer self)) < n ->
  sample g n false self = (Raise ValueError, self).
Proof.
  intros H. unfold sample, bindM, get_buffer, lift. simpl.
  unfold np_random_choice.
  destruct ((length (buffer self) =? 0)%nat && negb (n =? 0)); [reflexivity|].
  replace (Z.of_nat (length (buffer self)) <? n) with true
    by (symmetry; apply Z.ltb_lt; exact H).
  reflexivity.
Qed.

(** C5 at [n = 0]: no index is drawn, [np.array([])] is one-dimensional,
    and reading [shape[1]] raises an index error, whatever the buffer
    holds. *)
Theorem sample_zero_raises_index_error :
  (forall (F : Type) (g : RandomState) (self : t (list F)),
      sample g 0 false self = (Raise IndexError, self)) /\
  sample identity_generator 0 false
         {| buffer := [[1; 10]; [2; 20]; [3; 30]; [4; 40]; [5; 50]];
            max_size := 1000000 |}
  = (Raise IndexError,
     {| buffer := [[1; 10]; [2; 20]; [3; 30]; [4; 40]; [5; 50]];
        max_size := 1000000 |}).
Proof.
  split; [|reflexivity].
  intros F g self. unfold sample, bindM, get_buffer, lift. simpl.
  unfold np_random_choice.
  rewrite andb_false_r. simpl.
  replace (Z.of_nat (length (buffer self)) <? 0) with false
    by (symmetry; apply Z.ltb_ge; lia).
  reflexivity.
Qed.

Example sample_2_of_5 :
  fst (sample identity_generator 2 false
         {| buffer := [[1; 10]; [2; 20]; [3; 30]; [4; 40]; [5; 50]];
            max_size := 1000000 |})
  = Ok [[1; 2]; [10; 20]].
Proof. reflexivity. Qed.

Example sample_6_of_5 :
  fst (sample identity_generator 6 false
         {| buffer := [[1; 10]; [2; 20]; [3; 30]; [4; 40]; [5; 50]];
            max_size := 1000000 |})
  = Raise ValueError.
Proof. reflexivity. Qed.

Lemma mapM_Forall2 {A B} (f : A -> result B) (l : list A) :
  (forall x, In x l -> exists y, f x = Ok y) ->
  exists ys, mapM f l = Ok ys /\ Forall2 (fun x y => f x = Ok y) l ys.
Proof.
  induction l as [|x l IH]; intros H.
  - exists []. split; [reflexivity | constructor].
  - destruct (H x (or_introl eq_refl)) as (y & Hy).
    destruct IH as (ys & Hys & HF); [intros; apply H; right; assumption|].
    exists (y :: ys). simpl. rewrite Hy. simpl. rewrite Hys. simpl.
    split; [reflexivity | constructor; assumption].
Qed.

Lemma gather_in_range {A} (data_idxs : list nat) (batch_data : list A)
      (self : t A) :
  Forall (fun i => (i < length (buffer self))%nat) data_idxs ->
  exists batch,
    gather data_idxs batch_data self = (Ok (batch_data ++ batch), self) /\
    Forall2 (fun i r => nth_error (buffer self) i = Some r) data_idxs batch.
Proof.
  revert batch_data. induction data_idxs as [|i rest IH];
    intros batch_data Hin.
  - exists []. rewrite app_nil_r. split; [reflexivity | constructor].
  - inversion Hin as [|? ? Hi Hrest]; subst.
    destruct (nth_error (buffer self) i) as [r|] eqn:Er;
      [|apply nth_error_None in Er; lia].
    destruct (IH (batch_data ++ [r]) Hrest) as (batch & Hg & HF).
    exists (r :: batch). split.
    + simpl. unfold bindM, get_buffer, lift, py_index. simpl.
      rewrite Er, Hg, <- app_assoc. reflexivity.
    + constructor; assumption.
Qed.

(** What a sound generator draws without replacement: [n] distinct indices
    below the population size. *)
Lemma draw_without_replacement (g : RandomState) (m n : nat) :
  RandomState_ok g -> (n <= m)%nat ->
  length (firstn n (permutation g m)) = n /\
  NoDup (firstn n (permutation g m)) /\
  Forall (fun i => (i < m)%nat) (firstn n (permutation g m)).
Proof.
  intros [Hperm _] Hn. specialize (Hperm m).
  assert (Hlen : length (permutation g m) = m).
  { rewrite (Permutation_length Hperm). apply length_seq. }
  assert (Hnd : NoDup (permutation g m)).
  { apply (Permutation_NoDup (Permutation_sym Hperm)), seq_NoDup. }
  assert (Hlt : Forall (fun i => (i < m)%nat) (permutation g m)).
  { apply Forall_forall. intros i Hi.
    apply (Permutation_in _ Hperm), in_seq in Hi. lia. }
  rewrite <- (firstn_skipn n (permutation g m)) in Hnd, Hlt.
  repeat split.
  - rewrite length_firstn. lia.
  - apply NoDup_app_remove_r in Hnd. exact Hnd.
  - apply Forall_app in Hlt. tauto.
Qed.

Lemma uniform_width_shape1 {F} (k : nat) (batch : list (list F)) :
  batch <> [] -> Forall (fun r => length r = k) batch ->
  np_array_shape1 batch = Ok k.
Proof.
  intros Hne Hall. destruct batch as [|r rs]; [contradiction|].
  inversion Hall as [|? ? Hr Hrs]; subst. unfold np_array_shape1.
  replace (forallb (fun r' => (length r' =? length r)%nat) rs) with true;
    [reflexivity|].
  symmetry. apply forallb_forall. intros r' Hin.
  apply Nat.eqb_eq. rewrite Forall_forall in Hrs. apply Hrs. exact Hin.
Qed.

Lemma mapM_length {A B} (f : A -> result B) (l : list A) (ys : list B) :
  mapM f l = Ok ys -> length ys = length l.
Proof.
  revert ys. induction l as [|x l IH]; intros ys H; simpl in H.
  - injection H as <-. reflexivity.
  - bind_inv H. bind_inv H. injection H as <-. simpl. f_equal.
    apply IH. exact E0.
Qed.

Lemma Forall2_in_right {A B} (R : A -> B -> Prop) (l : list A) (l' : list B)
      (y : B) :
  Forall2 R l l' -> In y l' -> exists x, In x l /\ R x y.
Proof.
  induction 1 as [|x y' l l' Hxy _ IH]; intros Hin; [contradiction|].
  destruct Hin as [<-|Hin].
  - exists x. split; [left; reflexivity | exact Hxy].
  - destruct (IH Hin) as (x' & Hx' & HR). exists x'. split; [right|]; assumption.
Qed.

(** Sampling [n] records without replacement, for [1 <= n <= len(buffer)],
    from a buffer of [k]-tuples: the call succeeds, the indices are [n]
    distinct positions of the buffer, and the result is one array per tuple
    position, each holding that field of the [n] chosen records. *)
Lemma sample_within_size_returns_columns {F} (g : RandomState) (n : Z)
      (k : nat) (self : t (list F)) :
  RandomState_ok g ->
  Forall (fun r => length r = k) (buffer self) ->
  1 <= n <= Z.of_nat (length (buffer self)) ->
  exists data_idxs batch_data element_tensors,
    sample g n false self = (Ok element_tensors, self) /\
    length data_idxs = Z.to_nat n /\
    NoDup data_idxs /\
    Forall2 (fun i r => nth_error (buffer self) i = Some r)
            data_idxs batch_data /\
    length element_tensors = k /\
    Forall2 (fun j column => np_stack_column batch_data j = Ok column /\
                             length column = Z.to_nat n)
            (seq 0 k) element_tensors.
Proof.
  intros Hg Hk [Hn1 Hn2].
  destruct (draw_without_replacement g (length (buffer self)) (Z.to_nat n) Hg)
    as (Hlen & Hnd & Hlt); [lia|].
  set (idxs := firstn (Z.to_nat n) (permutation g (length (buffer self)))) in *.
  destruct (gather_in_range idxs [] self Hlt) as (batch & Hgather & Hbatch).
  simpl in Hgather.
  assert (Hblen : length batch = Z.to_nat n).
  { rewrite <- (Forall2_length Hbatch). exact Hlen. }
  assert (Hbk : Forall (fun r => length r = k) batch).
  { apply Forall_forall. intros r Hr.
    destruct (Forall2_in_right _ _ _ _ Hbatch Hr) as (i & _ & Hi).
    apply nth_error_In in Hi. rewrite Forall_forall in Hk. apply Hk, Hi. }
  assert (Hshape : np_array_shape1 batch = Ok k).
  { apply uniform_width_shape1; [|exact Hbk].
    destruct batch; [simpl in Hblen; lia | discriminate]. }
  destruct (mapM_Forall2 (np_stack_column batch) (seq 0 k))
    as (cols & Hcols & HF).
  { intros j Hj. apply in_seq in Hj.
    destruct (mapM_Forall2 (fun r => py_index r j) batch) as (col & Hc & _).
    - intros r Hr. unfold py_index.
      destruct (nth_error r j) eqn:Ej; [eauto|].
      apply nth_error_None in Ej.
      rewrite Forall_forall in Hbk. rewrite (Hbk r Hr) in Ej. lia.
    - exists col. exact Hc. }
  exists idxs, batch, cols. repeat split.
  - unfold sample, bindM, get_buffer, lift. simpl.
    unfold np_random_choice.
    replace ((length (buffer self) =? 0)%nat) with false
      by (symmetry; apply Nat.eqb_neq; lia).
    simpl.
    replace (Z.of_nat (length (buffer self)) <? n) with false
      by (symmetry; apply Z.ltb_ge; lia).
    replace (n <? 0) with false by (symmetry; apply Z.ltb_ge; lia).
    fold idxs. rewrite Hgather, Hshape, Hcols. reflexivity.
  - exact Hlen.
  - exact Hnd.
  - exact Hbatch.
  - rewrite (mapM_length _ _ _ Hcols). apply length_seq.
  - eapply Forall2_impl; [|exact HF].
    intros j col Hc. split; [exact Hc|].
    unfold np_stack_column in Hc. rewrite (mapM_length _ _ _ Hc). exact Hblen.
Qed.

(** *** The dueling combination *)

Module DuelingFacts.
Import DDDQNNetwork.
Local Open Scope Q_scope.

Lemma inject_length_succ (n : nat) :
  inject_Z (Z.of_nat (S n)) == inject_Z (Z.of_nat n) + 1.
Proof. rewrite Nat2Z.inj_succ, <- Z.add_1_r, inject_Z_plus. reflexivity. Qed.

Lemma inject_length_nonzero (n : nat) :
  (0 < n)%nat -> ~ inject_Z (Z.of_nat n) == 0.
Proof.
  intros Hn H. unfold Qeq in H. simpl in H. lia.
Qed.





Lemma linear_apply_length (l : linear) (x : vec) :
  well_formed l -> length (linear_apply l x) = out_features l.
Proof.
  unfold well_formed, linear_apply, out_features. intros H.
  rewrite length_map, length_combine, H. apply Nat.min_id.
Qed.



End DuelingFacts.




Example small_dueling_forward :
  map Qred (DDDQNNetwork.forward small_dueling_params [1; 2]%Q)
  = [31 # 3; 28 # 3; 88 # 3]%Q.
Proof. vm_compute. reflexivity. Qed.

(* ================================================================== *)
(** * Further properties of models/base.py *)

(** X1.  Whenever [CriticNetwork(obs_dim)] is constructed, its forward pass
    maps a batch of [b] observations of shape [obs_dim] to a tensor of shape
    [(b, 1)]: one value per observation. *)
Theorem critic_forward_shape (obs_dim : shape) (net : CriticNetwork.t) :
  CriticNetwork.__init__ obs_dim = Ok net ->
  forall b, 0 <= b -> CriticNetwork.forward net (b :: obs_dim) = Ok [b; 1].
Proof.
  unfold CriticNetwork.__init__. intros H.
  bind_inv H. rename a into enc, E into Henc.
  bind_inv H. apply torch_zeros_ok in E as ->.
  bind_inv H. rename a into out, E into Hout.
  bind_inv H. rename a into hidden, E into Hhid.
  bind_inv H. apply nn_Linear_ok in E as ->.
  bind_inv H. apply nn_Linear_ok in E as ->.
  injection H as <-.
  intros b _. unfold CriticNetwork.forward. simpl.
  destruct (encoder_batch _ _ _ Henc Hout) as (d & rest & -> & HB).
  rewrite net_forward_app, HB. cbn [bind net_forward layer_forward].
  rewrite numel_batch_one.
  cbn [linear_shape bind]. rewrite Z.eqb_refl. cbn [bind linear_shape].
  rewrite Z.eqb_refl. reflexivity.
Qed.

Lemma critic_forward_shape_witness :
  exists net, CriticNetwork.__init__ [1; 20; 20] = Ok net /\
              CriticNetwork.forward net [32; 1; 20; 20] = Ok [32; 1].
Proof.
  eexists {| CriticNetwork.encoder_output_size := 784 |}.
  split; [reflexivity|].
  apply (critic_forward_shape [1; 20; 20]); [reflexivity | lia].
Defined.

Lemma linear_shape_row (i o b : Z) : linear_shape i o [b; i] = Ok [b; o].
Proof. cbn [linear_shape bind]. rewrite Z.eqb_refl. reflexivity. Qed.

(** X2.  Whenever [SFNetwork(obs_dim, embed_dim)] is constructed, its
    forward pass returns, for a batch of [b] observations, an embedding and
    a successor-feature prediction that both have shape [(b, embed_dim)]. *)
Theorem sf_forward_shapes (obs_dim : shape) (embed_dim : Z)
        (net : SFNetwork.t) :
  SFNetwork.__init__ obs_dim embed_dim = Ok net ->
  forall b, 0 <= b ->
    SFNetwork.forward net (b :: obs_dim)
    = Ok ([b; embed_dim], [b; embed_dim]).
Proof.
  unfold SFNetwork.__init__. intros H.
  bind_inv H. rename a into enc, E into Henc.
  bind_inv H. apply torch_zeros_ok in E as ->.
  bind_inv H. rename a into out, E into Hout.
  bind_inv H. apply nn_Linear_ok in E as ->.
  bind_inv H. unfold nn_LayerNorm in E.
  destruct (embed_dim <? 0); [discriminate|]. injection E as <-.
  bind_inv H. rename a into hidden, E into Hhid.
  bind_inv H. apply nn_Linear_ok in E as ->.
  bind_inv H. apply nn_Linear_ok in E as ->.
  bind_inv H. apply nn_Linear_ok in E as ->.
  injection H as <-.
  intros b _. unfold SFNetwork.forward. simpl.
  destruct (encoder_batch _ _ _ Henc Hout) as (d & rest & -> & HB).
  rewrite net_forward_app, HB. cbn [bind net_forward layer_forward].
  rewrite numel_batch_one, linear_shape_row. cbn [bind].
  unfold LayerNorm_forward. cbn [rev app]. rewrite Z.eqb_refl. cbn [bind].
  rewrite linear_shape_row. cbn [bind].
  rewrite linear_shape_row. cbn [bind].
  rewrite linear_shape_row. reflexivity.
Qed.

Lemma sf_forward_shapes_witness :
  exists net, SFNetwork.__init__ [4; 84; 84] 256 = Ok net /\
              SFNetwork.forward net [8; 4; 84; 84] = Ok ([8; 256], [8; 256]).
Proof.
  eexists {| SFNetwork.encoder_output_size := 576 |}.
  split; [reflexivity|].
  apply (sf_forward_shapes [4; 84; 84] 256); [reflexivity | lia].
Defined.

(** *** Encoders against their decoders *)

Lemma conv_same_size (h : Z) : 1 <= h -> conv_out h 3 1 1 = Ok h.
Proof.
  intros H. unfold conv_out.
  replace (h + 2 * 1 <? 3) with false by (symmetry; apply Z.ltb_ge; lia).
  rewrite Z.div_1_r. f_equal. lia.
Qed.

Lemma conv_transpose_out_ok (h k s : Z) :
  1 <= h -> 1 <= (h - 1) * s + k ->
  conv_transpose_out h k s 0 = Ok ((h - 1) * s + k).
Proof.
  intros Hh Ho. unfold conv_transpose_out.
  replace (h <? 1) with false by (symmetry; apply Z.ltb_ge; lia).
  replace ((h - 1) * s - 2 * 0 + k <? 1) with false
    by (symmetry; apply Z.ltb_ge; lia).
  cbn [orb]. f_equal. lia.
Qed.

Lemma conv_out_ok (h k s : Z) :
  k <= h -> conv_out h k s 0 = Ok ((h - k) / s + 1).
Proof.
  intros H. unfold conv_out.
  replace (h + 2 * 0 <? k) with false by (symmetry; apply Z.ltb_ge; lia).
  do 3 f_equal. lia.
Qed.

(** Sizes along one axis: two strided convolutions down, two transposed
    convolutions and the same-size convolution up. *)
Lemma gridworld_axis (h : Z) :
  8 <= h ->
  exists h1 h2,
    conv_out h 4 2 0 = Ok h1 /\ conv_out h1 3 1 0 = Ok h2 /\ 1 <= h2 /\
    conv_transpose_out h2 3 1 0 = Ok h1 /\
    conv_transpose_out h1 4 2 0 = Ok (h - h mod 2) /\
    conv_out (h - h mod 2) 3 1 1 = Ok (h - h mod 2).
Proof.
  intros Hh.
  pose proof (Z.div_mod (h - 4) 2 ltac:(lia)) as D1.
  pose proof (Z.mod_pos_bound (h - 4) 2 ltac:(lia)) as B1.
  pose proof (Z.div_mod h 2 ltac:(lia)) as D2.
  pose proof (Z.mod_pos_bound h 2 ltac:(lia)) as B2.
  exists ((h - 4) / 2 + 1), ((h - 4) / 2 - 1).
  assert (Q2 : 2 <= (h - 4) / 2) by lia.
  repeat split.
  - apply conv_out_ok. lia.
  - rewrite conv_out_ok by lia. rewrite Z.div_1_r. f_equal. lia.
  - lia.
  - rewrite conv_transpose_out_ok by lia. f_equal. lia.
  - rewrite conv_transpose_out_ok by lia. f_equal. lia.
  - apply conv_same_size. lia.
Qed.

Lemma atari_axis (h : Z) :
  25 <= h ->
  exists h1 h2,
    conv_out h 5 5 0 = Ok h1 /\ conv_out h1 5 5 0 = Ok h2 /\ 1 <= h2 /\
    conv_transpose_out h2 5 5 0 = Ok (5 * h2) /\
    conv_transpose_out (5 * h2) 5 5 0 = Ok (h - h mod 25) /\
    conv_out (h - h mod 25) 3 1 1 = Ok (h - h mod 25).
Proof.
  intros Hh.
  set (a := (h - 5) / 5). set (q := (a + 1 - 5) / 5).
  pose proof (Z.div_mod (h - 5) 5 ltac:(lia)) as D1.
  pose proof (Z.mod_pos_bound (h - 5) 5 ltac:(lia)) as B1.
  pose proof (Z.div_mod (a + 1 - 5) 5 ltac:(lia)) as D2.
  pose proof (Z.mod_pos_bound (a + 1 - 5) 5 ltac:(lia)) as B2.
  fold a in D1. fold q in D2.
  assert (Ha : 4 <= a) by (unfold a; apply Z.div_le_lower_bound; lia).
  assert (Hq : 0 <= q) by (unfold q; apply Z.div_le_lower_bound; lia).
  assert (Hmod : h mod 25 = h - 25 * (q + 1)).
  { symmetry. apply (Z.mod_unique_pos h 25 (q + 1)); lia. }
  exists (a + 1), (q + 1).
  repeat split.
  - apply conv_out_ok. lia.
  - apply conv_out_ok. lia.
  - lia.
  - rewrite conv_transpose_out_ok by lia. f_equal. lia.
  - rewrite conv_transpose_out_ok by lia. f_equal. lia.
  - apply conv_same_size. lia.
Qed.

Lemma numel_reshape (b d0 d1 : Z) :
  numel [b; d0 * d1] = numel [b; d0; d1].
Proof. unfold numel. simpl. ring. Qed.

(** X3.  The simple 1-D encoder and decoder built for a shape [(d0, d1)] of
    positive dimensions invert each other on shapes: the encoder takes a
    batch [(b, d0, d1)] to [(b, 32)], and the decoder, whose last layer is
    the [ReshapeLayer], takes [(b, 32)] back to [(b, d0, d1)]. *)
Theorem simple_1D_shape_round_trip (d0 d1 b : Z) :
  0 < d0 -> 0 < d1 ->
  exists enc dec,
    create_simple_1D_encoder [d0; d1] = Ok enc /\
    create_simple_1D_decoder [d0; d1] = Ok dec /\
    net_forward enc [b; d0; d1] = Ok [b; 32] /\
    net_forward dec [b; 32] = Ok [b; d0; d1].
Proof.
  intros H0 H1.
  assert (N : (d0 * d1 <? 0) = false) by (apply ltb_0_false; nia).
  exists [Flatten; Linear (d0 * d1) 16; ReLU; Linear 16 32; ReLU],
         [Linear 32 16; ReLU; Linear 16 (d0 * d1); ReshapeLayer [d0; d1]].
  repeat split.
  - unfold_factories. simpl. rewrite N. reflexivity.
  - unfold_factories. simpl. rewrite N. reflexivity.
  - cbn [net_forward layer_forward bind numel fold_right].
    rewrite Z.mul_1_r, linear_shape_row. cbn [bind].
    rewrite linear_shape_row. reflexivity.
  - cbn [net_forward layer_forward bind].
    rewrite linear_shape_row. cbn [bind].
    rewrite linear_shape_row. cbn [bind].
    rewrite numel_reshape, Z.eqb_refl. reflexivity.
Qed.

Lemma simple_1D_shape_round_trip_witness :
  exists enc dec,
    create_simple_1D_encoder [4; 4] = Ok enc /\
    create_simple_1D_decoder [4; 4] = Ok dec /\
    net_forward enc [7; 4; 4] = Ok [7; 32] /\
    net_forward dec [7; 32] = Ok [7; 4; 4].
Proof. apply (simple_1D_shape_round_trip 4 4 7); lia. Defined.

(** X4.  The gridworld encoder followed by the gridworld decoder returns,
    on a batch of images with [c >= 1] channels and sides at least 8,
    images with [c] channels whose sides are rounded down to even numbers:
    the shape comes back exactly when both sides are even. *)
Theorem gridworld_shape_round_trip (c h w b : Z) :
  0 < c -> 8 <= h -> 8 <= w ->
  exists enc dec z,
    create_gridworld_encoder c = Ok enc /\
    create_gridworld_decoder c = Ok dec /\
    net_forward enc [b; c; h; w] = Ok z /\
    net_forward dec z = Ok [b; c; h - h mod 2; w - w mod 2].
Proof.
  intros Hpos Hh Hw. assert (Hc : 0 <= c) by lia.
  destruct (gridworld_axis h Hh) as (h1 & h2 & A1 & A2 & _ & A3 & A4 & A5).
  destruct (gridworld_axis w Hw) as (w1 & w2 & B1 & B2 & _ & B3 & B4 & B5).
  exists [Conv2d c 8 4 2 0; ReLU; Conv2d 8 16 3 1 0; ReLU],
         [ConvTranspose2d 16 8 3 1 0; ReLU; ConvTranspose2d 8 c 4 2 0;
          Conv2d c c 3 1 1],
         [b; 16; h2; w2].
  repeat split.
  - unfold create_gridworld_encoder, nn_Conv2d.
    rewrite (ltb_0_false c Hc). reflexivity.
  - unfold create_gridworld_decoder, nn_ConvTranspose2d, nn_Conv2d.
    rewrite (ltb_0_false c Hc). reflexivity.
  - cbn [net_forward layer_forward]. rewrite Z.eqb_refl, A1, B1.
    cbn [bind]. rewrite A2, B2. reflexivity.
  - cbn [net_forward layer_forward]. rewrite A3, B3. cbn [bind Z.eqb Pos.eqb].
    rewrite A4, B4. cbn [bind]. rewrite Z.eqb_refl, A5, B5. reflexivity.
Qed.

Lemma gridworld_shape_round_trip_witness :
  exists enc dec z,
    create_gridworld_encoder 1 = Ok enc /\
    create_gridworld_decoder 1 = Ok dec /\
    net_forward enc [5; 1; 16; 17] = Ok z /\
    net_forward dec z = Ok [5; 1; 16 - 16 mod 2; 17 - 17 mod 2].
Proof. apply (gridworld_shape_round_trip 1 16 17 5); lia. Defined.

(** X5.  The Atari encoder followed by the Atari decoder returns, on a
    batch of images with [c >= 1] channels and sides at least 25, images
    with [c] channels whose sides are rounded down to multiples of 25: an
    84x84 frame comes back as 75x75. *)
Theorem atari_shape_round_trip (c h w b : Z) :
  0 < c -> 25 <= h -> 25 <= w ->
  exists enc dec z,
    create_atari_encoder c = Ok enc /\
    create_atari_decoder c = Ok dec /\
    net_forward enc [b; c; h; w] = Ok z /\
    net_forward dec z = Ok [b; c; h - h mod 25; w - w mod 25].
Proof.
  intros Hpos Hh Hw. assert (Hc : 0 <= c) by lia.
  destruct (atari_axis h Hh) as (h1 & h2 & A1 & A2 & _ & A3 & A4 & A5).
  destruct (atari_axis w Hw) as (w1 & w2 & B1 & B2 & _ & B3 & B4 & B5).
  exists [Conv2d c 32 5 5 0; ReLU; Conv2d 32 64 5 5 0; ReLU],
         [ConvTranspose2d 64 32 5 5 0; ReLU; ConvTranspose2d 32 c 5 5 0;
          ReLU; Conv2d c c 3 1 1],
         [b; 64; h2; w2].
  repeat split.
  - unfold create_atari_encoder, nn_Conv2d.
    rewrite (ltb_0_false c Hc). reflexivity.
  - unfold create_atari_decoder, nn_ConvTranspose2d, nn_Conv2d.
    rewrite (ltb_0_false c Hc). reflexivity.
  - cbn [net_forward layer_forward]. rewrite Z.eqb_refl, A1, B1.
    cbn [bind Z.eqb Pos.eqb]. rewrite A2, B2. reflexivity.
  - cbn [net_forward layer_forward]. rewrite A3, B3. cbn [bind Z.eqb Pos.eqb].
    rewrite A4, B4. cbn [bind]. rewrite Z.eqb_refl, A5, B5. reflexivity.
Qed.

Lemma atari_shape_round_trip_witness :
  exists enc dec z,
    create_atari_encoder 4 = Ok enc /\
    create_atari_decoder 4 = Ok dec /\
    net_forward enc [2; 4; 84; 84] = Ok z /\
    net_forward dec z = Ok [2; 4; 84 - 84 mod 25; 84 - 84 mod 25].
Proof. apply (atari_shape_round_trip 4 84 84 2); lia. Defined.

(** *** The state-prediction model, end to end *)

Lemma bind_never_ok {A B} (c : result A) (k : A -> result B) :
  (forall a, is_ok (k a) = false) -> is_ok (bind c k) = false.
Proof. intros H. destruct c; simpl; [apply H | reflexivity]. Qed.

Lemma view_as_target (target s out : shape) :
  view_as target s = Ok out -> out = target.
Proof.
  unfold view_as. destruct (numel s =? numel target); intros H;
    [injection H as <-; reflexivity | discriminate].
Qed.

Lemma view_as_then {B} (target s : shape) (k : shape -> result B) :
  is_ok (k target) = false -> is_ok (z <- view_as target s ;; k z) = false.
Proof.
  intros H. unfold view_as. destruct (numel s =? numel target); simpl;
    [exact H | reflexivity].
Qed.

Section FlatShape.

Variables d0 d1 : Z.
Hypothesis d0_range : 0 < d0 <= 32.
Hypothesis d1_pos : 0 < d1.

Lemma flat_encoder_selected :
  create_encoder_from_obs_dim [d0; d1] =
  Ok [Flatten; Linear (d0 * d1) 16; ReLU; Linear 16 32; ReLU].
Proof.
  unfold_factories. cbn [length Nat.eqb nth_error bind].
  replace (d0 <=? 32) with true by (symmetry; apply Z.leb_le; lia).
  cbn [nth_error bind]. rewrite (ltb_0_false (d0 * d1)) by nia. reflexivity.
Qed.

Lemma flat_hidden_selected : get_hidden_size_from_obs_dim [d0; d1] = Ok 32.
Proof.
  unfold_factories. cbn [length Nat.eqb nth_error bind].
  replace (d0 <=? 32) with true by (symmetry; apply Z.leb_le; lia).
  reflexivity.
Qed.

Lemma flat_encoder_forward (b : Z) :
  net_forward [Flatten; Linear (d0 * d1) 16; ReLU; Linear 16 32; ReLU]
              [b; d0; d1] = Ok [b; 32].
Proof.
  cbn [net_forward layer_forward bind numel fold_right].
  rewrite Z.mul_1_r, linear_shape_row. cbn [bind].
  rewrite linear_shape_row. reflexivity.
Qed.

(** The decoder selected for the same shape is a convolutional one. *)
Lemma flat_decoder_selected :
  create_decoder_from_obs_dim [d0; d1] =
  Ok (if d1 <=? 32
      then [ConvTranspose2d 16 8 3 1 0; ReLU;
            ConvTranspose2d 8 d0 4 2 0; Conv2d d0 d0 3 1 1]
      else [ConvTranspose2d 64 32 5 5 0; ReLU;
            ConvTranspose2d 32 d0 5 5 0; ReLU; Conv2d d0 d0 3 1 1]).
Proof.
  unfold_factories. cbn [length Nat.eqb nth_error bind].
  rewrite (ltb_0_false d0) by lia.
  destruct (d1 <=? 32); reflexivity.
Qed.

End FlatShape.

(** X6.  On a flat observation shape [(d0, d1)] with [0 < d0 <= 32] the
    state-prediction model is constructed, but it cannot be run: the
    decoder selected for a length-2 shape is convolutional and receives the
    two-dimensional latent, so [forward] raises on every batch of
    observations and every batch of actions. *)
Theorem world_model_unusable_on_flat_shapes (d0 d1 n_acts : Z) :
  0 < d0 <= 32 -> 0 < d1 -> 0 <= n_acts ->
  exists m,
    StatePredictionModel.__init__ [d0; d1] n_acts = Ok m /\
    forall (b : Z) (acts : shape),
      is_ok (StatePredictionModel.forward m [b; d0; d1] acts) = false.
Proof.
  intros H0 H1 Hn.
  eexists. split.
  - unfold StatePredictionModel.__init__.
    rewrite torch_zeros_nonneg by (repeat constructor; lia).
    rewrite (flat_encoder_selected d0 d1 H0 H1). cbn [bind].
    rewrite (flat_encoder_forward d0 d1 1). cbn [bind].
    rewrite (flat_hidden_selected d0 d1 H0), (flat_decoder_selected d0 d1 H0).
    change (numel [1; 32]) with 32. unfold nn_Linear.
    rewrite (ltb_0_false (32 + n_acts)) by lia.
    cbn [bind orb Z.ltb Z.compare]. reflexivity.
  - intros b acts. unfold StatePredictionModel.forward.
    cbn [StatePredictionModel.downsample_convs StatePredictionModel.fc
         StatePredictionModel.upsample_convs].
    rewrite (flat_encoder_forward d0 d1 b). cbn [bind].
    do 4 (apply bind_never_ok; intros ?).
    apply view_as_then.
    destruct (d1 <=? 32); reflexivity.
Qed.

Lemma world_model_unusable_on_flat_shapes_witness :
  exists m,
    StatePredictionModel.__init__ [4; 4] 2 = Ok m /\
    forall (b : Z) (acts : shape),
      is_ok (StatePredictionModel.forward m [b; 4; 4] acts) = false.
Proof. apply (world_model_unusable_on_flat_shapes 4 4 2); lia. Defined.

Lemma numel_rows (b : Z) (s : shape) : numel [b; numel s] = numel (b :: s).
Proof. unfold numel. simpl. ring. Qed.

(** The forward pass of a constructed model, given what its encoder and
    decoder do to shapes. *)
Section WorldModelRuns.

Variables (obs_dim latent out_dim : shape) (n_acts hidden : Z).
Variables (enc dec : Sequential).
Hypothesis obs_nonneg : Forall (fun d => 0 <= d) obs_dim.
Hypothesis latent_nonneg : Forall (fun d => 0 <= d) latent.
Hypothesis acts_nonneg : 0 <= n_acts.
Hypothesis hidden_nonneg : 0 <= hidden.
Hypothesis enc_selected : create_encoder_from_obs_dim obs_dim = Ok enc.
Hypothesis dec_selected : create_decoder_from_obs_dim obs_dim = Ok dec.
Hypothesis hidden_selected : get_hidden_size_from_obs_dim obs_dim = Ok hidden.
Hypothesis enc_forward :
  forall b, net_forward enc (b :: obs_dim) = Ok (b :: latent).
Hypothesis dec_forward :
  forall b, net_forward dec (b :: latent) = Ok (b :: out_dim).

Lemma world_model_runs :
  exists m,
    StatePredictionModel.__init__ obs_dim n_acts = Ok m /\
    forall b, 0 < b ->
      StatePredictionModel.forward m (b :: obs_dim) [b; n_acts]
      = Ok (b :: out_dim).
Proof.
  pose proof (numel_nonneg latent latent_nonneg) as Hnum.
  eexists. split.
  - unfold StatePredictionModel.__init__.
    rewrite enc_selected. cbn [bind].
    rewrite torch_zeros_nonneg by (constructor; [lia | exact obs_nonneg]).
    cbn [bind]. rewrite enc_forward. cbn [bind].
    rewrite hidden_selected, dec_selected. cbn [bind].
    rewrite numel_batch_one. unfold nn_Linear.
    rewrite (ltb_0_false (numel latent + n_acts)) by lia.
    rewrite (ltb_0_false hidden) by lia.
    rewrite (ltb_0_false (numel latent)) by lia.
    cbn [orb bind]. reflexivity.
  - intros b Hb. unfold StatePredictionModel.forward.
    cbn [StatePredictionModel.downsample_convs StatePredictionModel.fc
         StatePredictionModel.upsample_convs].
    rewrite enc_forward. cbn [bind py_index nth_error].
    rewrite view_rows_batch by exact Hb. cbn [bind torch_cat1].
    rewrite Z.eqb_refl. cbn [bind net_forward layer_forward].
    rewrite linear_shape_row. cbn [bind].
    rewrite linear_shape_row. cbn [bind].
    rewrite linear_shape_row. cbn [bind].
    unfold view_as. rewrite numel_rows, Z.eqb_refl. cbn [bind].
    apply dec_forward.
Qed.

End WorldModelRuns.

(** X7.  On images [(c, h, w)] the state-prediction model is constructed
    and, given a batch of [b] observations and [b] action vectors of width
    [n_acts], predicts a batch of [c]-channel images whose sides are those
    of the observation rounded down to even numbers (height at most 32) or
    to multiples of 25 (height above 32): the prediction has the shape of
    the observation only when the sides are such multiples. *)
Theorem world_model_prediction_shape (c h w n_acts b : Z) :
  0 < c -> 8 <= h -> 8 <= w -> (32 < h -> 25 <= w) ->
  0 <= n_acts -> 0 < b ->
  exists m,
    StatePredictionModel.__init__ [c; h; w] n_acts = Ok m /\
    StatePredictionModel.forward m [b; c; h; w] [b; n_acts]
    = Ok (if h <=? 32 then [b; c; h - h mod 2; w - w mod 2]
          else [b; c; h - h mod 25; w - w mod 25]).
Proof.
  intros Hc Hh Hw Hbig Hn Hb.
  assert (Nc : (c <? 0) = false) by (apply ltb_0_false; lia).
  destruct (leb_32_cases h) as [[E _]|[E Hgt]]; rewrite E.
  - destruct (gridworld_axis h Hh) as (h1 & h2 & A1 & A2 & A0 & A3 & A4 & A5).
    destruct (gridworld_axis w Hw) as (w1 & w2 & B1 & B2 & B0 & B3 & B4 & B5).
    destruct (world_model_runs [c; h; w] [16; h2; w2]
                [c; h - h mod 2; w - w mod 2] n_acts 64
                [Conv2d c 8 4 2 0; ReLU; Conv2d 8 16 3 1 0; ReLU]
                [ConvTranspose2d 16 8 3 1 0; ReLU; ConvTranspose2d 8 c 4 2 0;
                 Conv2d c c 3 1 1])
      as (m & Hm & Hf); try lia.
    + repeat constructor; lia.
    + repeat constructor; lia.
    + unfold_factories. cbn [length Nat.eqb nth_error bind].
      rewrite E. cbn [bind]. rewrite Nc. reflexivity.
    + unfold_factories. cbn [length Nat.eqb nth_error bind].
      rewrite E. cbn [bind]. rewrite Nc. reflexivity.
    + unfold_factories. cbn [length Nat.eqb nth_error bind].
      rewrite E. reflexivity.
    + intros b'. cbn [net_forward layer_forward]. rewrite Z.eqb_refl, A1, B1.
      cbn [bind]. rewrite A2, B2. reflexivity.
    + intros b'. cbn [net_forward layer_forward]. rewrite A3, B3.
      cbn [bind Z.eqb Pos.eqb]. rewrite A4, B4. cbn [bind].
      rewrite Z.eqb_refl, A5, B5. reflexivity.
    + exists m. split; [exact Hm | apply Hf; exact Hb].
  - assert (Hh25 : 25 <= h) by lia. specialize (Hbig Hgt).
    destruct (atari_axis h Hh25) as (h1 & h2 & A1 & A2 & A0 & A3 & A4 & A5).
    destruct (atari_axis w Hbig) as (w1 & w2 & B1 & B2 & B0 & B3 & B4 & B5).
    destruct (world_model_runs [c; h; w] [64; h2; w2]
                [c; h - h mod 25; w - w mod 25] n_acts 256
                [Conv2d c 32 5 5 0; ReLU; Conv2d 32 64 5 5 0; ReLU]
                [ConvTranspose2d 64 32 5 5 0; ReLU;
                 ConvTranspose2d 32 c 5 5 0; ReLU; Conv2d c c 3 1 1])
      as (m & Hm & Hf); try lia.
    + repeat constructor; lia.
    + repeat constructor; lia.
    + unfold_factories. cbn [length Nat.eqb nth_error bind].
      rewrite E. cbn [bind]. rewrite Nc. reflexivity.
    + unfold_factories. cbn [length Nat.eqb nth_error bind].
      rewrite E. cbn [bind]. rewrite Nc. reflexivity.
    + unfold_factories. cbn [length Nat.eqb nth_error bind].
      rewrite E. reflexivity.
    + intros b'. cbn [net_forward layer_forward]. rewrite Z.eqb_refl, A1, B1.
      cbn [bind Z.eqb Pos.eqb]. rewrite A2, B2. reflexivity.
    + intros b'. cbn [net_forward layer_forward]. rewrite A3, B3.
      cbn [bind Z.eqb Pos.eqb]. rewrite A4, B4. cbn [bind].
      rewrite Z.eqb_refl, A5, B5. reflexivity.
    + exists m. split; [exact Hm | apply Hf; exact Hb].
Qed.

Lemma world_model_prediction_shape_witness :
  exists m,
    StatePredictionModel.__init__ [4; 84; 84] 3 = Ok m /\
    StatePredictionModel.forward m [2; 4; 84; 84] [2; 3]
    = Ok (if 84 <=? 32 then [2; 4; 84 - 84 mod 2; 84 - 84 mod 2]
          else [2; 4; 84 - 84 mod 25; 84 - 84 mod 25]).
Proof. apply (world_model_prediction_shape 4 84 84 3 2); lia. Defined.

(* ================================================================== *)
(** * Further properties of the experience buffer *)

Lemma extend_data_unfold {A} (xs : list A) (self : t A) :
  snd (extend_data xs self) =
  snd (_fix_size {| buffer := buffer self ++ xs; max_size := max_size self |}).
Proof. reflexivity. Qed.

(** X8.  With a non-negative capacity, extending the buffer in two calls
    leaves it as one call with the concatenated items does: truncating
    between the calls loses nothing that would have been kept. *)
Theorem extend_data_in_two_steps {A} (xs ys : list A) (self : t A) :
  0 <= max_size self ->
  snd (extend_data ys (snd (extend_data xs self))) =
  snd (extend_data (xs ++ ys) self).
Proof.
  intros Hc. destruct self as [l c]. simpl in Hc.
  rewrite (extend_data_unfold xs), (extend_data_unfold (xs ++ ys)).
  cbn [buffer max_size].
  destruct (Z.eq_dec c 0) as [->|Hne].
  - rewrite !fix_size_zero_keeps_all, extend_data_unfold.
    cbn [buffer max_size].
    rewrite fix_size_zero_keeps_all, app_assoc. reflexivity.
  - rewrite !fix_size_keeps_most_recent by lia.
    rewrite extend_data_unfold. cbn [buffer max_size].
    rewrite fix_size_keeps_most_recent by lia.
    rewrite most_recent_absorb, app_assoc. reflexivity.
Qed.

Lemma extend_data_in_two_steps_witness :
  snd (extend_data [4; 5] (snd (extend_data [1; 2; 3] (__init__ 3)))) =
  snd (extend_data ([1; 2; 3] ++ [4; 5]) (__init__ 3)).
Proof. apply extend_data_in_two_steps. simpl. lia. Defined.

Lemma gather_on_empty {A} (data_idxs : list nat) (self : t A) :
  buffer self = [] ->
  fst (gather data_idxs [] self) = Ok [] \/
  fst (gather data_idxs [] self) = Raise IndexError.
Proof.
  intros He. destruct data_idxs as [|i rest]; [left; reflexivity|].
  right. simpl. unfold bindM, get_buffer, lift, py_index. simpl.
  rewrite He. destruct i; reflexivity.
Qed.

(** X9.  [sample] never returns on an empty buffer, whatever [n] and
    [replace] are, and on any buffer it raises a value error when [n] is
    negative. *)
Theorem sample_fails_on_empty_buffer_and_negative_size
        {F} (g : RandomState) (n : Z) (replace : bool) (self : t (list F)) :
  (buffer self = [] -> is_ok (fst (sample g n replace self)) = false) /\
  (n < 0 -> fst (sample g n replace self) = Raise ValueError).
Proof.
  split.
  - intros He. unfold sample, bindM, get_buffer, lift. simpl.
    destruct (np_random_choice g (length (buffer self)) n replace)
      as [idxs|e]; [|reflexivity].
    pose proof (gather_on_empty idxs self He) as G.
    destruct (gather idxs [] self) as [[batch|e] self']; [|reflexivity].
    simpl in G. destruct G as [G|G]; [|discriminate].
    injection G as ->. reflexivity.
  - intros Hn. unfold sample, bindM, get_buffer, lift. simpl.
    unfold np_random_choice.
    replace (n <? 0) with true by (symmetry; apply Z.ltb_lt; exact Hn).
    destruct ((length (buffer self) =? 0)%nat && negb (n =? 0));
      [reflexivity|].
    destruct replace; [reflexivity|].
    destruct (Z.of_nat (length (buffer self)) <? n); reflexivity.
Qed.

Lemma sample_fails_on_empty_buffer_and_negative_size_witness :
  is_ok (fst (sample identity_generator 0 true
                     (@__init__ (list Z) 10))) = false /\
  fst (sample identity_generator (-1) true
              {| buffer := [[1; 10]; [2; 20]]; max_size := 10 |})
  = Raise ValueError.
Proof.
  split.
  - apply (sample_fails_on_empty_buffer_and_negative_size
             identity_generator 0 true (@__init__ (list Z) 10)).
    reflexivity.
  - apply (sample_fails_on_empty_buffer_and_negative_size
             identity_generator (-1) true
             {| buffer := [[1; 10]; [2; 20]]; max_size := 10 |}).
    lia.
Defined.

(** From indices inside the buffer to the per-field arrays. *)
Lemma columns_of_indices {F} (k : nat) (data_idxs : list nat)
      (self : t (list F)) :
  Forall (fun r => length r = k) (buffer self) ->
  Forall (fun i => (i < length (buffer self))%nat) data_idxs ->
  data_idxs <> [] ->
  exists batch_data element_tensors,
    gather data_idxs [] self = (Ok batch_data, self) /\
    Forall2 (fun i r => nth_error (buffer self) i = Some r)
            data_idxs batch_data /\
    np_array_shape1 batch_data = Ok k /\
    mapM (np_stack_column batch_data) (seq 0 k) = Ok element_tensors /\
    length element_tensors = k /\
    Forall (fun column => length column = length data_idxs) element_tensors.
Proof.
  intros Hk Hlt Hne.
  destruct (gather_in_range data_idxs [] self Hlt) as (batch & Hg & Hbatch).
  simpl in Hg.
  assert (Hblen : length batch = length data_idxs).
  { symmetry. apply (Forall2_length Hbatch). }
  assert (Hbk : Forall (fun r => length r = k) batch).
  { apply Forall_forall. intros r Hr.
    destruct (Forall2_in_right _ _ _ _ Hbatch Hr) as (i & _ & Hi).
    apply nth_error_In in Hi. rewrite Forall_forall in Hk. apply Hk, Hi. }
  assert (Hshape : np_array_shape1 batch = Ok k).
  { apply uniform_width_shape1; [|exact Hbk].
    destruct batch; [|discriminate].
    destruct data_idxs; [contradiction | discriminate]. }
  destruct (mapM_Forall2 (np_stack_column batch) (seq 0 k))
    as (cols & Hcols & HF).
  { intros j Hj. apply in_seq in Hj.
    destruct (mapM_Forall2 (fun r => py_index r j) batch) as (col & Hc & _).
    - intros r Hr. unfold py_index.
      destruct (nth_error r j) eqn:Ej; [eauto|].
      apply nth_error_None in Ej.
      rewrite Forall_forall in Hbk. rewrite (Hbk r Hr) in Ej. lia.
    - exists col. exact Hc. }
  exists batch, cols. repeat split; try assumption.
  - rewrite (mapM_length _ _ _ Hcols). apply length_seq.
  - apply Forall_forall. intros col Hcol.
    destruct (Forall2_in_right _ _ _ _ HF Hcol) as (j & _ & Hj).
    unfold np_stack_column in Hj. rewrite (mapM_length _ _ _ Hj). exact Hblen.
Qed.

Lemma mapM_inv {A B} (f : A -> result B) (l : list A) (ys : list B) :
  mapM f l = Ok ys -> Forall2 (fun x y => f x = Ok y) l ys.
Proof.
  revert ys. induction l as [|x l IH]; intros ys H; simpl in H.
  - injection H as <-. constructor.
  - bind_inv H. bind_inv H. injection H as <-.
    constructor; [exact E | apply IH; exact E0].
Qed.

(** X10.  With replacement, [sample] succeeds for every [n >= 1] on a
    non-empty buffer whose records are [k]-tuples of integers in the 64-bit
    range, also when [n] exceeds the number of stored records: it returns
    [k] arrays of [n] entries each, and leaves the buffer as it was. *)
Theorem sample_with_replacement_returns_columns
        (g : RandomState) (n : Z) (k : nat) (self : t (list Z)) :
  RandomState_ok g ->
  Forall (int64_tuple k) (buffer self) ->
  buffer self <> [] ->
  1 <= n ->
  exists element_tensors,
    sample g n true self = (Ok element_tensors, self) /\
    length element_tensors = k /\
    Forall (fun column => length column = Z.to_nat n /\
                          Forall (fun v => - 2 ^ 63 <= v < 2 ^ 63) column)
           element_tensors.
Proof.
  intros [_ Hg] Hint Hne Hn.
  assert (Hk : Forall (fun r => length r = k) (buffer self)).
  { apply Forall_impl with (2 := Hint). intros r [Hr _]. exact Hr. }
  assert (Hlen : (0 < length (buffer self))%nat).
  { destruct (buffer self); [contradiction | simpl; lia]. }
  destruct (Hg (length (buffer self)) (Z.to_nat n) Hlen) as (Hdl & Hdlt).
  set (idxs := randint g (length (buffer self)) (Z.to_nat n)) in *.
  destruct (columns_of_indices k idxs self Hk Hdlt)
    as (batch & cols & G & HB & Hs & Hc & Hcl & Hcn).
  { intros E. rewrite E in Hdl. simpl in Hdl. lia. }
  exists cols. repeat split.
  - unfold sample, bindM, get_buffer, lift. simpl.
    unfold np_random_choice.
    replace ((length (buffer self) =? 0)%nat) with false
      by (symmetry; apply Nat.eqb_neq; lia).
    replace (n <? 0) with false by (symmetry; apply Z.ltb_ge; lia).
    cbn [andb]. fold idxs. rewrite G, Hs, Hc. reflexivity.
  - exact Hcl.
  - apply Forall_forall. intros col Hcol. split.
    + rewrite <- Hdl. rewrite Forall_forall in Hcn. apply Hcn, Hcol.
    + (* every entry of a column is a field of a stored record *)
      pose proof (mapM_inv _ _ _ Hc) as HF.
      destruct (Forall2_in_right _ _ _ _ HF Hcol) as (j & _ & Hj).
      pose proof (mapM_inv _ _ _ Hj) as HF2.
      apply Forall_forall. intros v Hv.
      destruct (Forall2_in_right _ _ _ _ HF2 Hv) as (r & Hr & Hrv).
      destruct (Forall2_in_right _ _ _ _ HB Hr) as (i & _ & Hi).
      apply nth_error_In in Hi. rewrite Forall_forall in Hint.
      destruct (Hint r Hi) as [_ Hrange]. rewrite Forall_forall in Hrange.
      apply Hrange. unfold py_index in Hrv.
      destruct (nth_error r j) eqn:Ej; [|discriminate].
      injection Hrv as <-. apply nth_error_In in Ej. exact Ej.
Qed.

Lemma identity_generator_ok : RandomState_ok identity_generator.
Proof.
  split.
  - intros m. apply Permutation_refl.
  - intros m k Hm. simpl. split; [apply repeat_length|].
    apply Forall_forall. intros i Hi. apply repeat_spec in Hi. lia.
Qed.

Lemma sample_with_replacement_returns_columns_witness :
  exists element_tensors,
    sample identity_generator 5 true
           {| buffer := [[1; 10]; [2; 20]]; max_size := 10 |}
    = (Ok element_tensors,
       {| buffer := [[1; 10]; [2; 20]]; max_size := 10 |}) /\
    length element_tensors = 2%nat /\
    Forall (fun column => length column = Z.to_nat 5 /\
                          Forall (fun v => - 2 ^ 63 <= v < 2 ^ 63) column)
           element_tensors.
Proof.
  apply sample_with_replacement_returns_columns.
  - apply identity_generator_ok.
  - repeat constructor; lia.
  - discriminate.
  - lia.
Defined.

(* ================================================================== *)
(** * Properties of envs/wrappers.py *)

Module StepWrapperFacts.
Import StepWrappers.

Section Trajectories.

Context {S A O I : Type}.
Variable env : env_step S A O I.

Lemma run_no_termination_over_no_reward (actions : list A) (s : S) :
  run (NoTerminationWrapper_step (NoRewardWrapper_step env)) actions s =
  (map masked (fst (run env actions s)), snd (run env actions s)).
Proof.
  revert s. induction actions as [|a rest IH]; intros s; [reflexivity|].
  cbn [run]. unfold NoTerminationWrapper_step at 1.
  unfold NoRewardWrapper_step at 1.
  destruct (env a s) as [r s']. rewrite IH.
  destruct (run env rest s') as [rs s'']. reflexivity.
Qed.

Lemma run_no_reward_over_no_termination (actions : list A) (s : S) :
  run (NoRewardWrapper_step (NoTerminationWrapper_step env)) actions s =
  (map masked (fst (run env actions s)), snd (run env actions s)).
Proof.
  revert s. induction actions as [|a rest IH]; intros s; [reflexivity|].
  cbn [run]. unfold NoRewardWrapper_step at 1.
  unfold NoTerminationWrapper_step at 1.
  destruct (env a s) as [r s']. rewrite IH.
  destruct (run env rest s') as [rs s'']. reflexivity.
Qed.

Lemma run_no_termination (actions : list A) (s : S) :
  Forall (fun r => done r = false)
         (fst (run (NoTerminationWrapper_step env) actions s)) /\
  map (fun r => (obs r, reward r, info r))
      (fst (run (NoTerminationWrapper_step env) actions s)) =
  map (fun r => (obs r, reward r, info r)) (fst (run env actions s)) /\
  snd (run (NoTerminationWrapper_step env) actions s) =
  snd (run env actions s).
Proof.
  revert s. induction actions as [|a rest IH]; intros s.
  - repeat split. constructor.
  - cbn [run]. unfold NoTerminationWrapper_step at 1 3 5.
    destruct (env a s) as [r s']. specialize (IH s').
    destruct (run (NoTerminationWrapper_step env) rest s') as [rs1 t1].
    destruct (run env rest s') as [rs2 t2].
    cbn [fst snd] in *. destruct IH as (IH1 & IH2 & IH3).
    repeat split.
    + constructor; [reflexivity | exact IH1].
    + cbn [map]. rewrite IH2. reflexivity.
    + exact IH3.
Qed.

End Trajectories.

Lemma Qltb_true (x y : Q) : Qltb x y = true <-> (x < y)%Q.
Proof.
  unfold Qltb. rewrite negb_true_iff. split.
  - intros H. apply Qnot_le_lt. intros Hle.
    apply Qle_bool_iff in Hle. congruence.
  - intros H. destruct (Qle_bool y x) eqn:E; [|reflexivity].
    apply Qle_bool_iff in E. exfalso. apply (Qlt_not_le _ _ H E).
Qed.

End StepWrapperFacts.

(** X11.  Over every sequence of actions, an environment wrapped in
    [NoTerminationWrapper] and [NoRewardWrapper], in either order, returns
    the observations and infos of the inner environment with every reward 0
    and every termination flag false, and drives the inner environment
    through the same states. *)
Theorem masking_wrappers_commute {S A O I : Type}
        (env : StepWrappers.env_step S A O I) (actions : list A) (s : S) :
  let inner := StepWrappers.run env actions s in
  StepWrappers.run
    (StepWrappers.NoTerminationWrapper_step
       (StepWrappers.NoRewardWrapper_step env)) actions s
  = (map StepWrappers.masked (fst inner), snd inner) /\
  StepWrappers.run
    (StepWrappers.NoRewardWrapper_step
       (StepWrappers.NoTerminationWrapper_step env)) actions s
  = (map StepWrappers.masked (fst inner), snd inner).
Proof.
  split.
  - apply StepWrapperFacts.run_no_termination_over_no_reward.
  - apply StepWrapperFacts.run_no_reward_over_no_termination.
Qed.

(** X12.  [NoTerminationWrapper] never reports the end of an episode: over
    every sequence of actions each step has [done = False], while the
    observations, rewards, infos and the states the inner environment goes
    through are those of the inner environment. *)
Theorem no_termination_wrapper_never_done {S A O I : Type}
        (env : StepWrappers.env_step S A O I) (actions : list A) (s : S) :
  let wrapped := StepWrappers.run
                   (StepWrappers.NoTerminationWrapper_step env) actions s in
  let inner := StepWrappers.run env actions s in
  Forall (fun r => StepWrappers.done r = false) (fst wrapped) /\
  map (fun r => (StepWrappers.obs r, StepWrappers.reward r,
                 StepWrappers.info r)) (fst wrapped) =
  map (fun r => (StepWrappers.obs r, StepWrappers.reward r,
                 StepWrappers.info r)) (fst inner) /\
  snd wrapped = snd inner.
Proof. apply StepWrapperFacts.run_no_termination. Qed.

(** X13.  One step of [RandomTerminationWrapper], with a draw [u] in
    [[0, 1)]: the observation, reward, info and next state are the inner
    environment's; an episode the inner environment ends stays ended; with
    a termination chance of at most 0 the flag is the inner one, with a
    chance of at least 1 every step ends the episode; and in general the
    flag is the inner flag or [u < termination_chance]. *)
Theorem random_termination_step {S A O I : Type}
        (termination_chance u : Q)
        (env : StepWrappers.env_step S A O I) (action : A) (s : S) :
  (0 <= u)%Q -> (u < 1)%Q ->
  let inner := fst (env action s) in
  let wrapped :=
    fst (StepWrappers.RandomTerminationWrapper_step
           termination_chance env u action s) in
  snd (StepWrappers.RandomTerminationWrapper_step
         termination_chance env u action s) = snd (env action s) /\
  StepWrappers.obs wrapped = StepWrappers.obs inner /\
  StepWrappers.reward wrapped = StepWrappers.reward inner /\
  StepWrappers.info wrapped = StepWrappers.info inner /\
  StepWrappers.done wrapped =
    (StepWrappers.done inner || StepWrappers.Qltb u termination_chance) /\
  (StepWrappers.done inner = true -> StepWrappers.done wrapped = true) /\
  ((termination_chance <= 0)%Q ->
   StepWrappers.done wrapped = StepWrappers.done inner) /\
  ((1 <= termination_chance)%Q -> StepWrappers.done wrapped = true).
Proof.
  intros Hu0 Hu1 inner wrapped. subst inner wrapped.
  unfold StepWrappers.RandomTerminationWrapper_step.
  destruct (env action s) as [r s']. cbn [fst snd StepWrappers.obs
    StepWrappers.reward StepWrappers.info StepWrappers.done].
  repeat split.
  - destruct (StepWrappers.Qltb u termination_chance);
      destruct (StepWrappers.done r); reflexivity.
  - intros ->. destruct (StepWrappers.Qltb u termination_chance); reflexivity.
  - intros Hc. destruct (StepWrappers.Qltb u termination_chance) eqn:E;
      [|reflexivity].
    apply StepWrapperFacts.Qltb_true in E. exfalso.
    apply (Qlt_not_le _ _ E). apply Qle_trans with 0%Q; assumption.
  - intros Hc. destruct (StepWrappers.Qltb u termination_chance) eqn:E;
      [reflexivity|].
    assert (H : StepWrappers.Qltb u termination_chance = true).
    { apply StepWrapperFacts.Qltb_true.
      apply Qlt_le_trans with 1%Q; assumption. }
    congruence.
Qed.

Lemma random_termination_step_witness :
  StepWrappers.done
    (fst (StepWrappers.RandomTerminationWrapper_step
            (1 # 100)
            (fun (a : nat) (s : nat) =>
               ({| StepWrappers.obs := s; StepWrappers.reward := 1%Q;
                   StepWrappers.done := true; StepWrappers.info := tt |},
                (s + a)%nat))
            (1 # 2) 3%nat 4%nat)) = true.
Proof.
  destruct (random_termination_step (1 # 100) (1 # 2)
           (fun (a : nat) (s : nat) =>
              ({| StepWrappers.obs := s; StepWrappers.reward := 1%Q;
                  StepWrappers.done := true; StepWrappers.info := tt |},
               (s + a)%nat)) 3%nat 4%nat
           ltac:(unfold Qle; simpl; lia) ltac:(unfold Qlt; simpl; lia))
    as (_ & _ & _ & _ & _ & Hdone & _).
  apply Hdone. reflexivity.
Defined.

(** X14.  [Scale1DObsWrapper.observation] returns the observation it is
    given: the bounds it reads are those of the space installed by
    [__init__] (zeros and ones), not those of the wrapped environment, so
    nothing is rescaled, whatever the environment's bounds are. *)
Theorem scale_1d_observation_is_identity {I : Type}
        (env_observation_space : Scale1DObsWrapper.Box I)
        (observation : Scale1DObsWrapper.array I) (i : I) :
  (Scale1DObsWrapper.observation
     (Scale1DObsWrapper.__init__ env_observation_space) observation i
   == observation i)%Q.
Proof.
  unfold Scale1DObsWrapper.observation, Scale1DObsWrapper.__init__.
  cbn [Scale1DObsWrapper.observation_space Scale1DObsWrapper.low
       Scale1DObsWrapper.high].
  field.
Qed.

Example scale_1d_leaves_out_of_range_value :
  (Scale1DObsWrapper.observation
     (Scale1DObsWrapper.__init__
        {| Scale1DObsWrapper.low := fun _ : unit => (-10)%Q;
           Scale1DObsWrapper.high := fun _ => 10%Q |})
     (fun _ => 5%Q) tt == 5)%Q.
Proof. reflexivity. Qed.

Module GrayFacts.
Import GridWorldWrapper.
Local Open Scope Q_scope.

Lemma gray_bounds (m : Q) (p : pixel) :
  channels_within m p -> 0 <= gray p <= (9999 # 10000) * m.
Proof.
  destruct p as [[r g] b]. unfold channels_within, gray.
  intros ((Hr0 & Hr) & (Hg0 & Hg) & (Hb0 & Hb)).
  split.
  - assert (H1 : 0 <= r * (2989 # 10000))
      by (apply Qmult_le_0_compat; [exact Hr0 | discriminate]).
    assert (H2 : 0 <= g * (5870 # 10000))
      by (apply Qmult_le_0_compat; [exact Hg0 | discriminate]).
    assert (H3 : 0 <= b * (1140 # 10000))
      by (apply Qmult_le_0_compat; [exact Hb0 | discriminate]).
    lra.
  - lra.
Qed.

End GrayFacts.

(** X15.  [GridWorldWrapper.observation] keeps the height and width of the
    image and drops the channel axis, and stores the result in
    [formatted_obs]; in exact arithmetic, when every channel lies in
    [[0, m]], every grey value lies in [[0, 0.9999 m]] (the three weights
    add up to 0.9999).  The code sums rounded float64 products, which can
    pass the upper bound by a rounding error. *)
Theorem grayscale_observation_bounds
        (self : GridWorldWrapper.t) (observation : GridWorldWrapper.rgb_image)
        (m : Q) :
  Forall (Forall (GridWorldWrapper.channels_within m)) observation ->
  let result := GridWorldWrapper.observation self observation in
  map (@length _) (fst result) = map (@length _) observation /\
  Forall (Forall (fun v => (0 <= v <= (9999 # 10000) * m)%Q)) (fst result) /\
  GridWorldWrapper.formatted_obs (snd result) = Some (fst result).
Proof.
  intros H. cbn [GridWorldWrapper.observation fst snd
                 GridWorldWrapper.formatted_obs].
  repeat split.
  - rewrite map_map. apply map_ext. intros row. apply length_map.
  - apply Forall_map. apply Forall_impl with (2 := H).
    intros row Hrow. apply Forall_map.
    apply Forall_impl with (2 := Hrow).
    intros p Hp. apply GrayFacts.gray_bounds. exact Hp.
Qed.

Lemma grayscale_observation_bounds_witness :
  Forall (Forall (fun v => (0 <= v <= (9999 # 10000) * 1)%Q))
         (fst (GridWorldWrapper.observation
                 {| GridWorldWrapper.formatted_obs := None |}
                 [[(1, 1, 1); (0, 1 # 2, 1)]%Q])).
Proof.
  apply (grayscale_observation_bounds
           {| GridWorldWrapper.formatted_obs := None |}
           [[(1, 1, 1); (0, 1 # 2, 1)]%Q] 1%Q).
  repeat constructor; unfold Qle; simpl; lia.
Defined.

(** *** The start map of SimpleMapWrapper *)

Module StartMapFacts.
Import SimpleMapWrapper.

Ltac split_tests :=
  repeat match goal with
         | |- context [?a <? ?b] => destruct (Z.ltb_spec a b); try lia
         | |- context [?a <=? ?b] => destruct (Z.leb_spec a b); try lia
         | |- context [?a =? ?b] => destruct (Z.eqb_spec a b); try lia
         end.

Lemma axis_index_ok (i n : Z) :
  - n <= i < n ->
  axis_index i n = Ok (if i <? 0 then i + n else i).
Proof.
  intros H. unfold axis_index.
  destruct (Z.ltb_spec i 0); split_tests; reflexivity.
Qed.

Lemma axis_index_out (i n : Z) :
  i < - n \/ n <= i -> axis_index i n = Raise IndexError.
Proof.
  intros H. unfold axis_index.
  destruct (Z.ltb_spec i 0); split_tests; reflexivity.
Qed.

Lemma randint_range (low high draw x : Z) :
  np_random_randint low high draw = Ok x -> low <= x < high.
Proof.
  unfold np_random_randint. destruct (Z.ltb_spec low high); [|discriminate].
  intros E. injection E as <-.
  pose proof (Z.mod_pos_bound draw (high - low) ltac:(lia)). lia.
Qed.

Lemma setitem_in_grid (i j v : Z) (m : ndarray) :
  in_grid (n_rows m) (n_cols m) i j ->
  setitem i j v m =
  Ok {| n_rows := n_rows m; n_cols := n_cols m;
        cell := fun r c => if (r =? i) && (c =? j) then v else cell m r c |}.
Proof.
  intros [Hi Hj]. unfold setitem.
  rewrite (axis_index_ok i), (axis_index_ok j) by lia.
  replace (i <? 0) with false by (symmetry; apply Z.ltb_ge; lia).
  replace (j <? 0) with false by (symmetry; apply Z.ltb_ge; lia).
  reflexivity.
Qed.

(** Marking the start and then the target on the bordered map. *)
Lemma marked_map (h w sx sy tx ty : Z) :
  in_grid h w sx sy -> in_grid h w tx ty ->
  exists m,
    (map <- setitem sx sy 3
              (set_inside 0 {| n_rows := h; n_cols := w;
                               cell := fun _ _ => 1 |}) ;;
     setitem tx ty 4 map) = Ok m /\
    is_start_map h w (sx, sy) (tx, ty) m.
Proof.
  intros Hs Ht.
  rewrite setitem_in_grid by exact Hs. cbn [bind].
  rewrite setitem_in_grid by exact Ht.
  eexists. split; [reflexivity|].
  unfold is_start_map. cbn [n_rows n_cols cell fst snd set_inside].
  split; [reflexivity | split; [reflexivity|]].
  intros r c _. unfold inside. cbn [n_rows n_cols]. reflexivity.
Qed.

End StartMapFacts.

Module StartMapRuns.
Import SimpleMapWrapper StartMapFacts.

Lemma setitem_from_end (k j v : Z) (m : ndarray) :
  0 < k <= n_rows m ->
  setitem (- k) j v m = setitem (n_rows m - k) j v m.
Proof.
  intros H. unfold setitem.
  rewrite (axis_index_ok (- k)), (axis_index_ok (n_rows m - k)) by lia.
  replace (- k <? 0) with true by (symmetry; apply Z.ltb_lt; lia).
  replace (n_rows m - k <? 0) with false by (symmetry; apply Z.ltb_ge; lia).
  replace (- k + n_rows m) with (n_rows m - k) by lia. reflexivity.
Qed.

Lemma setitem_row_out (i j v : Z) (m : ndarray) :
  i < - n_rows m \/ n_rows m <= i -> setitem i j v m = Raise IndexError.
Proof. intros H. unfold setitem. rewrite axis_index_out by exact H. reflexivity. Qed.

Lemma setitem_col_out (i j v : Z) (m : ndarray) :
  j < - n_cols m \/ n_cols m <= j -> setitem i j v m = Raise IndexError.
Proof.
  intros H. unfold setitem. rewrite (axis_index_out j) by exact H.
  unfold axis_index.
  destruct ((0 <=? (if i <? 0 then i + n_rows m else i)) &&
            ((if i <? 0 then i + n_rows m else i) <? n_rows m));
    reflexivity.
Qed.

Lemma np_ones_ok (h w : Z) :
  0 <= h -> 0 <= w ->
  np_ones h w = Ok {| n_rows := h; n_cols := w; cell := fun _ _ => 1 |}.
Proof.
  intros Hh Hw. unfold np_ones.
  rewrite (ltb_0_false h Hh), (ltb_0_false w Hw). reflexivity.
Qed.

(** What the redraw loop returns, when it returns: a position that does
    not hold 3, which is the position it was given or one it drew. *)
Lemma redraw_returns (fuel : nat) (draws : nat -> Z) (map : ndarray)
      (max_x max_y : Z) :
  forall (k : nat) (new_pos p : Z * Z),
    redraw fuel draws k map max_x max_y new_pos = Some (Ok p) ->
    (exists v, getitem (fst p) (snd p) map = Ok v /\ v <> 3) /\
    (p = new_pos \/ (1 <= fst p < max_x /\ 1 <= snd p < max_y)).
Proof.
  induction fuel as [|fuel IH]; intros k new_pos p H; cbn [redraw] in H.
  - destruct (getitem (fst new_pos) (snd new_pos) map) as [v|e] eqn:G;
      [|discriminate].
    destruct (Z.eqb_spec v 3); [discriminate|].
    injection H as <-. split; [exists v; auto | left; reflexivity].
  - destruct (getitem (fst new_pos) (snd new_pos) map) as [v|e] eqn:G;
      [|discriminate].
    destruct (Z.eqb_spec v 3).
    + destruct (np_random_randint 1 max_x (draws k)) as [x|] eqn:Ex;
        [|discriminate].
      destruct (np_random_randint 1 max_y (draws (S k))) as [y|] eqn:Ey;
        [|discriminate].
      apply IH in H as (Hv & [->|Hr]).
      * split; [exact Hv | right]. cbn [fst snd].
        apply randint_range in Ex, Ey. lia.
      * split; [exact Hv | right; exact Hr].
    + injection H as <-. split; [exists v; auto | left; reflexivity].
Qed.

End StartMapRuns.

(** X16.  Without a random start, [_reset_start_map] on an [h] by [w] map
    (sizes not negative) raises an index error when [h < 6] or [w < 5];
    otherwise it installs a map with walls (1) on the border, 0 inside, the
    start cell (3) at row [h - 3], column 2 and the target (4) at row
    [h - 6], column 4, makes the current map equal to it and puts the agent
    on the start state. *)
Theorem fixed_start_map {Obs St : Type}
        (gridmap_to_observation : SimpleMapWrapper.ndarray -> Obs)
        (get_agent_start_target_state : SimpleMapWrapper.ndarray -> St * St)
        (h w : Z) (draws : nat -> Z) (fuel : nat) :
  0 <= h -> 0 <= w ->
  let self := {| SimpleMapWrapper.random_start := false;
                 SimpleMapWrapper.map_shape := (h, w) |} in
  let run := SimpleMapWrapper._reset_start_map
               gridmap_to_observation get_agent_start_target_state
               self draws fuel in
  (h < 6 \/ w < 5 -> run = Some (Raise IndexError)) /\
  (6 <= h -> 5 <= w ->
   exists m,
     SimpleMapWrapper.is_start_map h w (h - 3, 2) (h - 6, 4) m /\
     run = Some (Ok {|
       SimpleMapWrapper.start_grid_map := m;
       SimpleMapWrapper.current_grid_map := m;
       SimpleMapWrapper.observation := gridmap_to_observation m;
       SimpleMapWrapper.grid_map_shape := (h, w);
       SimpleMapWrapper.agent_start_state :=
         fst (get_agent_start_target_state m);
       SimpleMapWrapper.agent_target_state :=
         snd (get_agent_start_target_state m);
       SimpleMapWrapper.agent_state :=
         fst (get_agent_start_target_state m) |})).
Proof.
  intros Hh Hw self run. subst self run.
  unfold SimpleMapWrapper._reset_start_map, SimpleMapWrapper.start_map.
  cbn [SimpleMapWrapper.map_shape SimpleMapWrapper.random_start].
  rewrite (StartMapRuns.np_ones_ok h w Hh Hw).
  split.
  - intros Hsmall.
    destruct (Z_lt_le_dec h 3) as [H3|H3].
    { rewrite StartMapRuns.setitem_row_out
        by (cbn [SimpleMapWrapper.n_rows SimpleMapWrapper.set_inside]; lia).
      reflexivity. }
    destruct (Z_lt_le_dec w 3) as [W3|W3].
    { rewrite StartMapRuns.setitem_col_out
        by (cbn [SimpleMapWrapper.n_cols SimpleMapWrapper.set_inside]; lia).
      reflexivity. }
    rewrite (StartMapRuns.setitem_from_end 3)
      by (cbn [SimpleMapWrapper.n_rows SimpleMapWrapper.set_inside]; lia).
    rewrite StartMapFacts.setitem_in_grid
      by (unfold SimpleMapWrapper.in_grid;
          cbn [SimpleMapWrapper.n_rows SimpleMapWrapper.n_cols
               SimpleMapWrapper.set_inside]; lia).
    cbn [bind].
    destruct Hsmall as [H6|W5].
    + rewrite StartMapRuns.setitem_row_out
        by (cbn [SimpleMapWrapper.n_rows SimpleMapWrapper.set_inside]; lia).
      reflexivity.
    + rewrite StartMapRuns.setitem_col_out
        by (cbn [SimpleMapWrapper.n_cols SimpleMapWrapper.set_inside]; lia).
      reflexivity.
  - intros H6 W5.
    destruct (StartMapFacts.marked_map h w (h - 3) 2 (h - 6) 4)
      as (m & Hm & Hmap); try (unfold SimpleMapWrapper.in_grid; lia).
    exists m. split; [exact Hmap|].
    rewrite (StartMapRuns.setitem_from_end 3)
      by (cbn [SimpleMapWrapper.n_rows SimpleMapWrapper.set_inside]; lia).
    cbn [SimpleMapWrapper.n_rows SimpleMapWrapper.set_inside] in *.
    destruct (SimpleMapWrapper.setitem (h - 3) 2 3 _) as [m1|] eqn:E1;
      [|discriminate].
    cbn [bind] in *.
    assert (R1 : SimpleMapWrapper.n_rows m1 = h).
    { unfold SimpleMapWrapper.setitem in E1.
      destruct (SimpleMapWrapper.axis_index (h - 3) _); [|discriminate].
      destruct (SimpleMapWrapper.axis_index 2 _); [|discriminate].
      cbn [bind] in E1. injection E1 as <-. reflexivity. }
    rewrite (StartMapRuns.setitem_from_end 6) by lia.
    rewrite R1, Hm.
    destruct Hmap as (Hr & Hc & _). rewrite Hr, Hc. reflexivity.
Qed.

Lemma fixed_start_map_witness :
  exists m,
    SimpleMapWrapper.is_start_map 16 16 (16 - 3, 2) (16 - 6, 4) m /\
    SimpleMapWrapper._reset_start_map
      (fun _ => tt) (fun _ => (tt, tt))
      {| SimpleMapWrapper.random_start := false;
         SimpleMapWrapper.map_shape := (16, 16) |} (fun _ => 0) 0
    = Some (Ok {|
        SimpleMapWrapper.start_grid_map := m;
        SimpleMapWrapper.current_grid_map := m;
        SimpleMapWrapper.observation := tt;
        SimpleMapWrapper.grid_map_shape := (16, 16);
        SimpleMapWrapper.agent_start_state := tt;
        SimpleMapWrapper.agent_target_state := tt;
        SimpleMapWrapper.agent_state := tt |}).
Proof.
  destruct (fixed_start_map (fun _ => tt) (fun _ => (tt, tt)) 16 16
                            (fun _ => 0) 0%nat ltac:(lia) ltac:(lia))
    as (_ & H).
  apply H; lia.
Defined.

Module RandomStartFacts.
Import SimpleMapWrapper StartMapFacts StartMapRuns.

Lemma random_start_map_returns (h w : Z) (draws : nat -> Z) (fuel : nat)
      (m : ndarray) :
  start_map {| random_start := true; map_shape := (h, w) |} draws fuel
  = Some (Ok m) ->
  exists start target,
    start <> target /\
    (1 <= fst start < h - 1 /\ 1 <= snd start < w - 1) /\
    (1 <= fst target < h - 1 /\ 1 <= snd target < w - 1) /\
    is_start_map h w start target m.
Proof.
  unfold start_map. cbn [map_shape random_start]. unfold np_ones.
  destruct ((h <? 0) || (w <? 0)); [discriminate|].
  fold (bordered h w).
  destruct (np_random_randint 1 (h - 1) (draws 0%nat)) as [x|] eqn:Ex;
    [|discriminate].
  destruct (np_random_randint 1 (w - 1) (draws 1%nat)) as [y|] eqn:Ey;
    [|discriminate].
  apply randint_range in Ex, Ey. cbn [bind].
  assert (Gxy : in_grid h w x y) by (unfold in_grid; lia).
  rewrite setitem_in_grid by exact Gxy. cbn [bind].
  destruct (np_random_randint 1 (h - 1) (draws 2%nat)) as [x'|] eqn:Ex';
    [|discriminate].
  destruct (np_random_randint 1 (w - 1) (draws 3%nat)) as [y'|] eqn:Ey';
    [|discriminate].
  apply randint_range in Ex', Ey'. cbn [bind].
  match goal with
  | |- context [redraw fuel draws 4 ?mm _ _ _] => set (map1 := mm)
  end.
  destruct (redraw fuel draws 4 map1 (h - 1) (w - 1) (x', y'))
    as [[p|e]|] eqn:R; try discriminate.
  intros H. injection H as H.
  apply redraw_returns in R as ((v & Gv & Hv) & Hp).
  assert (Hin : 1 <= fst p < h - 1 /\ 1 <= snd p < w - 1).
  { destruct Hp as [->|Hp]; [cbn [fst snd]; lia | exact Hp]. }
  assert (Gp : in_grid h w (fst p) (snd p)) by (unfold in_grid; lia).
  assert (Hne : (x, y) <> p).
  { intros <-. cbn [fst snd] in Gv. unfold getitem, map1 in Gv.
    cbn [n_rows n_cols bordered set_inside] in Gv.
    rewrite (axis_index_ok x), (axis_index_ok y) in Gv by lia.
    replace (x <? 0) with false in Gv by (symmetry; apply Z.ltb_ge; lia).
    replace (y <? 0) with false in Gv by (symmetry; apply Z.ltb_ge; lia).
    cbn [bind cell] in Gv. rewrite !Z.eqb_refl in Gv. cbn [andb] in Gv.
    injection Gv as <-. contradiction. }
  destruct (marked_map h w x y (fst p) (snd p) Gxy Gp) as (m' & Hm' & Hmap).
  fold (bordered h w) in Hm'.
  rewrite setitem_in_grid in Hm' by exact Gxy. cbn [bind] in Hm'.
  fold map1 in Hm'. rewrite Hm' in H. injection H as <-.
  exists (x, y), p. destruct p as [px py]. cbn [fst snd] in *.
  repeat split; try lia; try exact Hne.
  - apply Hmap.
  - apply Hmap.
  - apply Hmap.
Qed.

Lemma randint_single (draw : Z) : np_random_randint 1 2 draw = Ok 1.
Proof.
  unfold np_random_randint. cbn [Z.ltb Z.compare Pos.compare Pos.compare_cont].
  change (2 - 1) with 1. rewrite Z.mod_1_r. reflexivity.
Qed.

(** On the 3 by 3 map the only cell inside holds the start, and every
    redraw lands on it. *)
Lemma redraw_never_returns_3x3 (draws : nat -> Z) (fuel : nat) :
  forall k,
    redraw fuel draws k
           {| n_rows := 3; n_cols := 3;
              cell := fun r c => if (r =? 1) && (c =? 1) then 3
                                 else cell (bordered 3 3) r c |}
           2 2 (1, 1) = None.
Proof.
  induction fuel as [|fuel IH]; intros k; cbn [redraw]; [reflexivity|].
  cbn [getitem fst snd n_rows n_cols axis_index bind cell Z.ltb Z.leb
       Z.compare Pos.compare Pos.compare_cont andb Z.eqb Pos.eqb].
  rewrite !randint_single. apply IH.
Qed.

End RandomStartFacts.

(** X17.  With a random start, whenever [_reset_start_map] returns, the
    start cell (3) and the target cell (4) are two different cells inside
    the border, on a map that is otherwise walls on the border and 0
    inside, and the current map equals the start map.  On a 3 by 3 map the
    single inside cell holds the start and the redraw loop never ends; on
    a map with a side of at most 2 the first draw raises a value error. *)
Theorem random_start_map {Obs St : Type}
        (gridmap_to_observation : SimpleMapWrapper.ndarray -> Obs)
        (get_agent_start_target_state : SimpleMapWrapper.ndarray -> St * St)
        (h w : Z) (draws : nat -> Z) (fuel : nat) :
  let self := {| SimpleMapWrapper.random_start := true;
                 SimpleMapWrapper.map_shape := (h, w) |} in
  let run := SimpleMapWrapper._reset_start_map
               gridmap_to_observation get_agent_start_target_state
               self draws fuel in
  (forall u, run = Some (Ok u) ->
     SimpleMapWrapper.current_grid_map u = SimpleMapWrapper.start_grid_map u /\
     exists start target,
       start <> target /\
       (1 <= fst start < h - 1 /\ 1 <= snd start < w - 1) /\
       (1 <= fst target < h - 1 /\ 1 <= snd target < w - 1) /\
       SimpleMapWrapper.is_start_map h w start target
         (SimpleMapWrapper.start_grid_map u)) /\
  (h = 3 -> w = 3 -> run = None) /\
  (0 <= h -> 0 <= w -> h <= 2 \/ w <= 2 -> run = Some (Raise ValueError)).
Proof.
  intros self run. subst self run. split; [|split].
  - intros u H. unfold SimpleMapWrapper._reset_start_map in H.
    destruct (SimpleMapWrapper.start_map _ draws fuel) as [[m|e]|] eqn:E;
      try discriminate.
    injection H as <-. cbn [SimpleMapWrapper.current_grid_map
                            SimpleMapWrapper.start_grid_map].
    split; [reflexivity|].
    apply (RandomStartFacts.random_start_map_returns h w draws fuel m E).
  - intros -> ->. unfold SimpleMapWrapper._reset_start_map,
      SimpleMapWrapper.start_map.
    cbn [SimpleMapWrapper.map_shape SimpleMapWrapper.random_start].
    rewrite StartMapRuns.np_ones_ok by lia.
    change (3 - 1) with 2. rewrite !RandomStartFacts.randint_single.
    cbn [bind]. rewrite StartMapFacts.setitem_in_grid
      by (unfold SimpleMapWrapper.in_grid; cbn; lia).
    cbn [bind SimpleMapWrapper.n_rows SimpleMapWrapper.n_cols
         SimpleMapWrapper.set_inside].
    rewrite RandomStartFacts.redraw_never_returns_3x3. reflexivity.
  - intros Hh Hw Hsmall. unfold SimpleMapWrapper._reset_start_map,
      SimpleMapWrapper.start_map.
    cbn [SimpleMapWrapper.map_shape SimpleMapWrapper.random_start].
    rewrite StartMapRuns.np_ones_ok by lia.
    unfold SimpleMapWrapper.np_random_randint.
    destruct (Z.ltb_spec 1 (h - 1)); [|reflexivity].
    destruct (Z.ltb_spec 1 (w - 1)); [lia | reflexivity].
Qed.

Lemma random_start_map_witness :
  (exists u,
      SimpleMapWrapper._reset_start_map
        (fun _ => tt) (fun _ => (tt, tt))
        {| SimpleMapWrapper.random_start := true;
           SimpleMapWrapper.map_shape := (16, 16) |} (fun k => Z.of_nat k) 0
      = Some (Ok u) /\
      exists start target,
        start <> target /\
        (1 <= fst start < 16 - 1 /\ 1 <= snd start < 16 - 1) /\
        (1 <= fst target < 16 - 1 /\ 1 <= snd target < 16 - 1) /\
        SimpleMapWrapper.is_start_map 16 16 start target
          (SimpleMapWrapper.start_grid_map u)) /\
  SimpleMapWrapper._reset_start_map
    (fun _ => tt) (fun _ => (tt, tt))
    {| SimpleMapWrapper.random_start := true;
       SimpleMapWrapper.map_shape := (3, 3) |} (fun k => Z.of_nat k) 5
  = None.
Proof.
  split.
  - destruct (random_start_map (fun _ => tt) (fun _ => (tt, tt)) 16 16
                               (fun k => Z.of_nat k) 0%nat) as (H & _).
    eexists. split; [reflexivity|].
    apply H. reflexivity.
  - destruct (random_start_map (fun _ => tt) (fun _ => (tt, tt)) 3 3
                               (fun k => Z.of_nat k) 5%nat) as (_ & H & _).
    apply H; reflexivity.
Defined.

(* ================================================================== *)
(** * Further properties of the dueling network and of the dispatch *)

Lemma broadcast_column (b n : Z) :
  broadcast [b; n] [b; 1] = Ok [b; n] /\ broadcast [b; 1] [b; n] = Ok [b; n].
Proof.
  unfold broadcast. cbn [rev app broadcast_rev bind].
  rewrite Z.eqb_refl. cbn [bind].
  destruct (Z.eqb_spec n 1) as [->|Hn].
  - split; reflexivity.
  - replace (1 =? n) with false by (symmetry; apply Z.eqb_neq; lia).
    cbn [Z.eqb Pos.eqb bind rev app]. split; reflexivity.
Qed.

(** X18.  Whenever [DDDQNNetwork(obs_dim, n_acts)] is constructed, its
    forward pass maps a batch of [b] observations to a tensor of shape
    [(b, n_acts)]: the value column [(b, 1)] is broadcast over the centred
    advantages. *)
Theorem dueling_forward_shape (obs_dim : shape) (n_acts : Z)
        (net : DDDQNNetworkShapes.t) :
  DDDQNNetworkShapes.__init__ obs_dim n_acts = Ok net ->
  forall b, 0 <= b ->
    DDDQNNetworkShapes.forward net (b :: obs_dim) = Ok [b; n_acts].
Proof.
  unfold DDDQNNetworkShapes.__init__. intros H.
  bind_inv H. rename a into enc, E into Henc.
  bind_inv H. apply torch_zeros_ok in E as ->.
  bind_inv H. rename a into out, E into Hout.
  bind_inv H. rename a into hidden, E into Hhid.
  bind_inv H. apply nn_Linear_ok in E as ->.
  bind_inv H. apply nn_Linear_ok in E as ->.
  bind_inv H. apply nn_Linear_ok in E as ->.
  bind_inv H. apply nn_Linear_ok in E as ->.
  injection H as <-.
  intros b _. unfold DDDQNNetworkShapes.forward.
  cbn [DDDQNNetworkShapes.encoder DDDQNNetworkShapes.value_layers
       DDDQNNetworkShapes.advantage_layers].
  destruct (encoder_batch _ _ _ Henc Hout) as (d & rest & -> & HB).
  rewrite HB. cbn [bind net_forward layer_forward].
  rewrite numel_batch_one, !linear_shape_row. cbn [bind].
  rewrite !linear_shape_row. cbn [bind mean_dim1_keepdim].
  destruct (broadcast_column b n_acts) as (B1 & B2).
  rewrite B1. cbn [bind]. rewrite B2. reflexivity.
Qed.

Lemma dueling_forward_shape_witness :
  exists net, DDDQNNetworkShapes.__init__ [4; 84; 84] 6 = Ok net /\
              DDDQNNetworkShapes.forward net [32; 4; 84; 84] = Ok [32; 6].
Proof.
  eexists {| DDDQNNetworkShapes.encoder_output_size := 576 |}.
  split; [reflexivity|].
  apply (dueling_forward_shape [4; 84; 84] 6); [reflexivity | lia].
Defined.

Module DuelingMore.
Import DDDQNNetwork DuelingFacts.
Local Open Scope Q_scope.

Lemma vsum_affine (v m : Q) (l : vec) :
  vsum (map (fun a => v + (a - m)) l)
  == inject_Z (Z.of_nat (length l)) * (v - m) + vsum l.
Proof.
  induction l as [|a l IH].
  - simpl. ring.
  - cbn [map vsum fold_right length].
    fold (vsum (map (fun a => v + (a - m)) l)). fold (vsum l).
    rewrite IH, inject_length_succ. ring.
Qed.

Lemma mean_affine (v : Q) (l : vec) :
  (0 < length l)%nat ->
  mean (map (fun a => v + (a - mean l)) l) == v.
Proof.
  intros Hl. pose proof (inject_length_nonzero _ Hl) as HN.
  unfold mean at 1. rewrite length_map, vsum_affine. unfold mean.
  field. exact HN.
Qed.

End DuelingMore.

(** X19.  For a network with at least one action, the mean of the Q-values
    over the actions is the output of the value stream. *)
Theorem dueling_mean_q_is_value
        {Obs : Type} (self : DDDQNNetwork.t Obs) (x : Obs) :
  DDDQNNetwork.well_formed (DDDQNNetwork.advantage_out self) ->
  (0 < DDDQNNetwork.out_features (DDDQNNetwork.advantage_out self))%nat ->
  (DDDQNNetwork.mean (DDDQNNetwork.forward self x)
   == DDDQNNetwork.value_layers self (DDDQNNetwork.encoder self x))%Q.
Proof.
  intros Hwf Hn. unfold DDDQNNetwork.forward. rewrite map_map.
  apply DuelingMore.mean_affine.
  unfold DDDQNNetwork.advantage_layers.
  rewrite DuelingFacts.linear_apply_length by exact Hwf. exact Hn.
Qed.

Lemma dueling_mean_q_is_value_witness :
  (DDDQNNetwork.mean (DDDQNNetwork.forward small_dueling_params [1; 2]%Q)
   == DDDQNNetwork.value_layers small_dueling_params [1; 2]%Q)%Q.
Proof.
  apply (dueling_mean_q_is_value small_dueling_params [1; 2]%Q);
    [reflexivity | unfold DDDQNNetwork.out_features; simpl; lia].
Defined.

(** X20.  In exact arithmetic the Q-values are ordered as the advantages
    are: for any two actions, the Q-value of the first is at most that of
    the second exactly when its advantage is.  In floating point a large
    value can absorb the difference of two advantages. *)
Theorem dueling_q_order_is_advantage_order
        {Obs : Type} (self : DDDQNNetwork.t Obs) (x : Obs)
        (i j : nat) (ai aj : Q) :
  let advantages :=
    DDDQNNetwork.advantage_layers self (DDDQNNetwork.encoder self x) in
  nth_error advantages i = Some ai ->
  nth_error advantages j = Some aj ->
  exists qi qj,
    nth_error (DDDQNNetwork.forward self x) i = Some qi /\
    nth_error (DDDQNNetwork.forward self x) j = Some qj /\
    ((qi <= qj)%Q <-> (ai <= aj)%Q).
Proof.
  intros advantages Hi Hj. unfold DDDQNNetwork.forward.
  fold advantages. rewrite map_map, !nth_error_map, Hi, Hj. cbn [option_map].
  eexists. eexists. split; [reflexivity | split; [reflexivity|]].
  split; intros H; lra.
Qed.

Lemma dueling_q_order_is_advantage_order_witness :
  exists qi qj,
    nth_error (DDDQNNetwork.forward small_dueling_params [1; 2]%Q) 1 = Some qi /\
    nth_error (DDDQNNetwork.forward small_dueling_params [1; 2]%Q) 2 = Some qj /\
    ((qi <= qj)%Q <->
     (2 * Qmax 0 (1 * 1 + (0 * 2 + 0) + 0)
      + (0 * Qmax 0 (0 * 1 + (1 * 2 + 0) + 1) + 0) + 2
      <= 0 * Qmax 0 (1 * 1 + (0 * 2 + 0) + 0)
         + (7 * Qmax 0 (0 * 1 + (1 * 2 + 0) + 1) + 0) + 3)%Q).
Proof.
  apply (dueling_q_order_is_advantage_order small_dueling_params [1; 2]%Q
                                            1%nat 2%nat); reflexivity.
Defined.

(** X21.  On every shape with at least three elements (first element not
    negative) the encoder factory, the decoder factory and the hidden-width
    function agree: all three take the small-grid branch (width 64) when
    the second element is at most 32 and the large-grid branch (width 256)
    otherwise. *)
Theorem image_dispatch_agrees (d0 d1 d2 : Z) (rest : shape) :
  0 <= d0 ->
  let obs_dim := d0 :: d1 :: d2 :: rest in
  let fam := if d1 <=? 32 then SmallGrid else LargeGrid in
  exists e d,
    create_encoder_from_obs_dim obs_dim = Ok e /\
    create_decoder_from_obs_dim obs_dim = Ok d /\
    encoder_family e = Some fam /\
    decoder_family d = Some fam /\
    get_hidden_size_from_obs_dim obs_dim =
      Ok (if d1 <=? 32 then 64 else 256).
Proof.
  intros H0 obs_dim fam. subst obs_dim fam.
  assert (N : (d0 <? 0) = false) by (apply ltb_0_false; exact H0).
  unfold_factories. cbn [length Nat.eqb nth_error bind].
  destruct (d1 <=? 32); cbn [bind]; rewrite N; cbn [orb Z.ltb Z.compare bind];
    eexists; eexists; repeat split.
Qed.

Lemma image_dispatch_agrees_witness :
  exists e d,
    create_encoder_from_obs_dim [4; 84; 84] = Ok e /\
    create_decoder_from_obs_dim [4; 84; 84] = Ok d /\
    encoder_family e = Some LargeGrid /\
    decoder_family d = Some LargeGrid /\
    get_hidden_size_from_obs_dim [4; 84; 84] = Ok 256.
Proof. apply (image_dispatch_agrees 4 84 84 []). lia. Defined.
